(** * Language tutor: routing, execution, conversation store and turn pipeline

    A shallow embedding of the message pipeline of the tutor application:

    - [langchain_service.py]: [_route_message], [_execute_and_respond],
      [chat_with_tutor], [translate_text], [generate_exercise];
    - [simple_memory_service.py]: the file-backed conversation store with
      its listing, the per-user translation log and its history, and the
      LangChain buffer ([add_conversation], [get_conversation_history],
      [clear_conversation_memory]);
    - [tutor_app.py]: [_send_message], [get_response], [_handle_response],
      [_update_conversation_title], [_delete_message], [_clear_chat] and
      [ChatArea.load_messages].

    Python [str] values are Rocq strings, one character per code point below
    256.  Python dictionaries with string keys are [gmap string _].  The
    language models, the Mem0 backend, [json.loads], the clock and [uuid4]
    are external: they are variables of the section below.  Logging and
    widget updates other than the chat area are left out, and writing a file
    is taken to succeed. *)

From stdpp Require Import gmap strings list fin_maps sorting.
From Stdlib Require Import Ascii.

(** ** Python strings *)

Module Str.

Definition nl : string := String "010"%char EmptyString.

(** The double quote character, as a one-character string. *)
Definition dq : string := String "034"%char EmptyString.

(** [s[:n]] *)
Fixpoint take (n : nat) (s : string) : string :=
  match n, s with
  | S n', String c s' => String c (take n' s')
  | _, _ => EmptyString
  end.

(** [str.isspace] on one code point below 256. *)
Definition isspace (c : ascii) : bool :=
  let n := nat_of_ascii c in
  ((9 <=? n) && (n <=? 13)) || ((28 <=? n) && (n <=? 32))
  || (n =? 133) || (n =? 160).

Fixpoint lstrip (s : string) : string :=
  match s with
  | String c s' => if isspace c then lstrip s' else s
  | EmptyString => EmptyString
  end.

(** [s.rstrip()]: a character is kept when something after it is kept, or
    when it is not white space. *)
Fixpoint rstrip (s : string) : string :=
  match s with
  | String c s' =>
      match rstrip s' with
      | EmptyString => if isspace c then EmptyString else String c EmptyString
      | r => String c r
      end
  | EmptyString => EmptyString
  end.

(** [s.strip()] *)
Definition strip (s : string) : string := rstrip (lstrip s).

(** [sep.join(l)] *)
Fixpoint join (sep : string) (l : list string) : string :=
  match l with
  | [] => ""
  | [x] => x
  | x :: rest => x +:+ sep +:+ join sep rest
  end.

(** [needle in hay] *)
Definition contains (needle hay : string) : Prop :=
  ∃ pre post, hay = pre +:+ needle +:+ post.

(** [hay.startswith(needle)] *)
Fixpoint startswith (needle hay : string) : bool :=
  match needle, hay with
  | EmptyString, _ => true
  | String c n', String c' h' => bool_decide (c = c') && startswith n' h'
  | String _ _, EmptyString => false
  end.

(** [needle in hay], by trying every position. *)
Fixpoint containsb (needle hay : string) : bool :=
  startswith needle hay
  || match hay with
     | String _ h' => containsb needle h'
     | EmptyString => false
     end.

(** [c * n] *)
Fixpoint replicate (n : nat) (c : ascii) : string :=
  match n with
  | 0 => EmptyString
  | S n' => String c (replicate n' c)
  end.

End Str.

(** [l[-n:]] for [n > 0] *)
Definition lastn {A} (n : nat) (l : list A) : list A := drop (length l - n) l.

(** ** Exceptions and results *)

(** A raised exception: its class and [str(e)]. *)
Record exn := Exn { exn_class : string; exn_str : string }.

Inductive result (A : Type) : Type :=
| Ok (a : A)
| Raise (e : exn).
Arguments Ok {A} a.
Arguments Raise {A} e.

(** [x ← r; k] is stdpp's notation for [mbind]. *)
Global Instance result_ret : MRet result := λ A a, Ok a.
Global Instance result_bind : MBind result :=
  λ A B k r, match r with Ok a => k a | Raise e => Raise e end.

(** [try: body  except Exception as e: handler e] *)
Definition try_except {A} (body : result A) (handler : exn → result A) : result A :=
  match body with
  | Ok a => Ok a
  | Raise e => handler e
  end.

(** A decoded JSON value, as far as the pipeline looks into it: an object
    whose values are strings, or anything else (a list, a number, [None]). *)
Inductive pyval :=
| VDict (d : gmap string string)
| VOther (repr : string).

(** [v.get(key, dflt)]; only a dict has [get]. *)
Definition py_get (v : pyval) (key dflt : string) : result string :=
  match v with
  | VDict d => Ok (default dflt (d !! key))
  | VOther _ => Raise (Exn "AttributeError" "object has no attribute 'get'")
  end.

(** ** Data of the router ([langchain_service.py]) *)

(** [tool_call.function.arguments]: already a mapping, or a string still to
    be decoded. *)
Inductive raw_args :=
| RawVal (v : pyval)
| RawStr (s : string).

Record tool_call := ToolCall { fn_name : string; fn_arguments : raw_args }.

(** [response.message]: [tool_calls] ([None] and [[]] are both the empty
    list here) and [content] ([None] when the model sent no text). *)
Record chat_response :=
  ChatResponse { tool_calls : list tool_call; content : option string }.

(** The decision [{"tool": ..., "args": ...}]. *)
Record route := Route { tool : string; args : pyval }.

Definition chat_default : route := Route "chat" (VDict ∅).

(** ** Data of the executor *)

(** One call of an execution model, with what it returned:
    [translation_llm.invoke([HumanMessage(prompt)])] or
    [reasoning_llm.invoke([SystemMessage(system), HumanMessage(task)])]. *)
Inductive invocation :=
| InvokeTranslation (prompt : string) (outcome : result string)
| InvokeReasoning (system task : string) (outcome : result string).

Definition outcome_of (i : invocation) : result string :=
  match i with
  | InvokeTranslation _ o => o
  | InvokeReasoning _ _ o => o
  end.

(** The dictionary [chat_with_tutor] returns; its ['timestamp'] entry is not
    read by the caller and is left out. *)
Inductive chat_result :=
| ChatSuccess (response : string) (tool_used : option string)
| ChatFailure (error : string).

(** ** Data of the store ([simple_memory_service.py]) *)

(** A stored message: a dictionary with the keys [id], [role], [content],
    [timestamp]. *)
Abbreviation stored_message := (gmap string string).

(** A JSON object on disk: its string-valued keys ([id], [title],
    [created_at], [updated_at], ...) and its [messages] list, if it has the
    key. *)
Record conv_data :=
  ConvData { fields : gmap string string; messages : option (list stored_message) }.

Record translation_entry := TranslationEntry {
  original_text : string;
  translated_text : string;
  source_language : string;
  target_language : string;
  timestamp : string;
  metadata : gmap string string }.

(** What a file holds: text that is not JSON, an object, or an array (the
    translation log is one). *)
Inductive file_content :=
| NotJson
| JObject (d : conv_data)
| JArray (l : list translation_entry).

(** [chat_memory.messages] of the LangChain buffer. *)
Inductive chat_msg :=
| Human (text : string)
| AI (text : string).

(** One [mem0.add(messages, user_id=..., metadata=...)] the index accepted. *)
Record add_call := AddCall {
  add_messages : list stored_message;
  add_user_id : string;
  add_metadata : gmap string string }.

(** What [mem0.search] may hand back. *)
Inductive mem_item :=
| ItemDict (d : gmap string string)
| ItemStr (s : string)
| ItemOther (repr : string).

Inductive mem0_response :=
| RespDict (d : gmap string (list mem_item))
| RespList (l : list mem_item)
| RespOther.

(** Everything outside the application object: the data directory, the
    number of [datetime.now()] and [uuid4()] calls made so far, the Mem0
    index and the LangChain buffer of the memory service. *)
Record world := World {
  files : gmap string file_content;
  clock : nat;
  rng : nat;
  mem0_adds : list add_call;
  chat_memory : list chat_msg }.

(** Computations that read and write the world and may raise. *)
Definition M (A : Type) : Type := world → result A * world.

Global Instance M_ret : MRet M := λ A a w, (Ok a, w).
Global Instance M_bind : MBind M :=
  λ A B k m w, match m w with
               | (Ok a, w') => k a w'
               | (Raise e, w') => (Raise e, w')
               end.

Definition raise {A} (e : exn) : M A := λ w, (Raise e, w).

(** [try: body  except Exception as e: handler e]; what the body wrote
    before raising stays written. *)
Definition try_catch {A} (body : M A) (handler : exn → M A) : M A :=
  λ w, match body w with
       | (Ok a, w') => (Ok a, w')
       | (Raise e, w') => handler e w'
       end.

(** ** Data of the application ([tutor_app.py]) *)

(** The fields of [TutorApp] the pipeline reads or writes.  A service that
    failed to initialise is [None] in the source and [false] here. *)
Record app := App {
  memory_service : bool;
  tutor_service : bool;
  mem0 : bool;
  current_conversation_id : option string;
  user_id : string;
  user_profile : option (gmap string string);
  is_processing : bool;
  _pending_user_message : option string;
  chat_area : list (string * string) }.

(** What the closure [get_response] captures from [_send_message]. *)
Record pending := Pending {
  p_message : string;
  p_history : list stored_message;
  p_memories : list string }.

Definition set_is_processing (b : bool) (a : app) : app :=
  App (memory_service a) (tutor_service a) (mem0 a) (current_conversation_id a)
      (user_id a) (user_profile a) b (_pending_user_message a) (chat_area a).

Definition set_pending_user_message (m : string) (a : app) : app :=
  App (memory_service a) (tutor_service a) (mem0 a) (current_conversation_id a)
      (user_id a) (user_profile a) (is_processing a) (Some m) (chat_area a).

(** [self.chat_area.add_message(role, text)] *)
Definition chat_area_add (role text : string) (a : app) : app :=
  App (memory_service a) (tutor_service a) (mem0 a) (current_conversation_id a)
      (user_id a) (user_profile a) (is_processing a) (_pending_user_message a)
      (chat_area a ++ [(role, text)]).

(** The guard [self.memory_service and self.current_conversation_id]: the
    identifier it lets through.  An empty identifier is falsy. *)
Definition active_conversation (a : app) : option string :=
  if memory_service a then
    match current_conversation_id a with
    | Some cid => if decide (cid = "") then None else Some cid
    | None => None
    end
  else None.

Section Tutor.

(** ** The external collaborators *)

(** [ollama.chat(model=function_model, messages=[user_message], tools=TUTOR_TOOLS)] *)
Variable ollama_chat : string → string → result chat_response.
(** [json.loads]: [None] when it raises. *)
Variable json_loads : string → option pyval.
Variable function_model : string.
(** [translation_llm.invoke(...).content] for a prompt. *)
Variable translation_llm : string → result string.
(** [reasoning_llm.invoke(...).content] for a system and a user message. *)
Variable reasoning_llm : string → string → result string.
(** [datetime.now().isoformat()] at the n-th reading of the clock. *)
Variable isoformat : nat → string.
(** [str(uuid.uuid4())] at the n-th draw. *)
Variable uuid4 : nat → string.
(** [mem0.search(query, user_id, limit)] on the index as it stands. *)
Variable mem0_search : list add_call → string → string → nat → result mem0_response.
(** [mem0.add] raising on a payload, or accepting it. *)
Variable mem0_add_raises : add_call → option exn.

(** ** Intent router *)

(** [response.message.content[:100]], evaluated for the log line: slicing
    [None] raises. *)
Definition content_preview (r : chat_response) : result string :=
  match content r with
  | Some c => Ok (Str.take 100 c)
  | None => Raise (Exn "TypeError" "'NoneType' object is not subscriptable")
  end.

(** [if isinstance(tool_args, str): try: json.loads  except: {}] *)
Definition decode_args (a : raw_args) : pyval :=
  match a with
  | RawStr s =>
      match json_loads s with
      | Some v => v
      | None => VDict ∅
      end
  | RawVal v => v
  end.

Definition _route_message (user_message : string) : result route :=
  try_except
    (response ← ollama_chat function_model user_message;
     match tool_calls response with
     | tool_call :: _ =>
         let tool_name := fn_name tool_call in
         let tool_args := decode_args (fn_arguments tool_call) in
         Ok (Route tool_name tool_args)
     | [] =>
         _ ← content_preview response;
         Ok chat_default
     end)
    (λ e, Ok chat_default).

(** ** Task executor *)

(** One line of the transcript: [f"{role}: {content}..."] with
    [content = msg.get("content", "")[:200]]. *)
Definition history_line (msg : stored_message) : string :=
  let role := default "unknown" (msg !! "role") in
  let content := Str.take 200 (default "" (msg !! "content")) in
  role +:+ ": " +:+ content +:+ "...".

(** [conv_lines]: one line for each of [conversation_history[-6:]]. *)
Definition conv_lines (conversation_history : list stored_message) : list string :=
  history_line <$> lastn 6 conversation_history.

Definition conv_str (conversation_history : list stored_message) : string :=
  match conversation_history with
  | [] => ""
  | _ => Str.join Str.nl (conv_lines conversation_history)
  end.

Definition memory_str (memories : list string) : string :=
  match memories with
  | [] => ""
  | _ => "Relevant memories about the user:" +:+ Str.nl
         +:+ Str.join Str.nl ((λ mem, "- " +:+ mem) <$> memories)
  end.

Definition translate_prompt (target text : string) : string :=
  "Translate to " +:+ target +:+ ": " +:+ text.

Definition translation_reply (target translation : string) : string :=
  "Here's the translation to " +:+ target +:+ ":" +:+ Str.nl +:+ Str.nl
  +:+ "**" +:+ translation +:+ "**" +:+ Str.nl +:+ Str.nl
  +:+ "Would you like me to break down any part of this?".

Definition translation_apology (e : exn) : string :=
  "Sorry, I had trouble translating that: " +:+ exn_str e.

Definition error_apology (detail : string) : string :=
  "Sorry, I encountered an error: " +:+ detail.

Definition system_prompt (user_name target_lang : string) (memories : list string) : string :=
  "You are a friendly language tutor helping " +:+ user_name +:+ " learn "
  +:+ target_lang +:+ "." +:+ Str.nl +:+ Str.nl
  +:+ memory_str memories +:+ Str.nl +:+ Str.nl
  +:+ "Be warm, encouraging, and practical. Keep responses concise but helpful.".

Definition teach_task (topic lang : string) : string :=
  "Teach about: " +:+ topic +:+ " in " +:+ lang +:+ Str.nl +:+ Str.nl
  +:+ "Include:" +:+ Str.nl
  +:+ "1. The word/phrase with pronunciation" +:+ Str.nl
  +:+ "2. Meaning and usage" +:+ Str.nl
  +:+ "3. 1-2 example sentences" +:+ Str.nl
  +:+ "4. A quick tip" +:+ Str.nl +:+ Str.nl
  +:+ "Keep it concise and engaging.".

Definition exercise_task (difficulty lang : string) : string :=
  "Create a quick " +:+ difficulty +:+ " " +:+ lang +:+ " exercise."
  +:+ Str.nl +:+ Str.nl
  +:+ "- 3 questions max" +:+ Str.nl
  +:+ "- Include answer key" +:+ Str.nl
  +:+ "- Be encouraging".

Definition chat_task (user_message : string) (conversation_history : list stored_message) : string :=
  "Student says: " +:+ Str.dq +:+ user_message +:+ Str.dq +:+ Str.nl +:+ Str.nl
  +:+ conv_str conversation_history +:+ Str.nl +:+ Str.nl
  +:+ "Respond naturally as their tutor. Be friendly and helpful.".

(** The task-specific prompt of the tools other than [translate]. *)
Definition build_task (tool : string) (args : pyval) (user_message target_lang : string)
    (conversation_history : list stored_message) : result string :=
  if decide (tool = "teach") then
    topic ← py_get args "topic" user_message;
    lang ← py_get args "language" target_lang;
    Ok (teach_task topic lang)
  else if decide (tool = "exercise") then
    ex_type ← py_get args "type" "mixed";
    lang ← py_get args "language" target_lang;
    difficulty ← py_get args "difficulty" "beginner";
    Ok (exercise_task difficulty lang)
  else
    Ok (chat_task user_message conversation_history).

(** The reply, or the exception that escapes, together with the model calls
    that were made. *)
Definition _execute_and_respond (tool : string) (args : pyval) (user_message : string)
    (memories : list string) (user_profile : gmap string string)
    (conversation_history : list stored_message) : result string * list invocation :=
  let user_name := default "Student" (user_profile !! "user_name") in
  let target_lang := default "Spanish" (user_profile !! "target_language") in
  if decide (tool = "translate") then
    match (text ← py_get args "text" user_message;
           target ← py_get args "target_language" target_lang;
           Ok (text, target)) with
    | Raise e => (Raise e, [])
    | Ok (text, target) =>
        let prompt := translate_prompt target text in
        let outcome := translation_llm prompt in
        (Ok (match outcome with
             | Ok content => translation_reply target (Str.strip content)
             | Raise e => translation_apology e
             end),
         [InvokeTranslation prompt outcome])
    end
  else
    let system := system_prompt user_name target_lang memories in
    match build_task tool args user_message target_lang conversation_history with
    | Raise e => (Raise e, [])
    | Ok task =>
        let outcome := reasoning_llm system task in
        (Ok (match outcome with
             | Ok content => Str.strip content
             | Raise e => error_apology (exn_str e)
             end),
         [InvokeReasoning system task outcome])
    end.

(** [chat_with_tutor]: route, then execute; any exception becomes
    [{'success': False, 'error': str(e)}]. *)
Definition chat_with_tutor (message : string) (conversation_history : list stored_message)
    (mem0_memories : list string) (user_profile : option (gmap string string))
    : chat_result * list invocation :=
  match _route_message message with
  | Raise e => (ChatFailure (exn_str e), [])
  | Ok route =>
      match _execute_and_respond (tool route) (args route) message mem0_memories
              (default ∅ user_profile) conversation_history with
      | (Ok response, calls) =>
          (ChatSuccess response
             (if decide (tool route = "chat") then None else Some (tool route)),
           calls)
      | (Raise e, calls) => (ChatFailure (exn_str e), calls)
      end
  end.

(** [translate_text]: [{'success': True, 'translated_text': ...,
    'target_language': ...}] or [{'success': False, 'error': str(e)}]. *)
Inductive translate_result :=
| Translated (translated_text target_language : string)
| TranslateFailed (error : string).

Definition translate_text (text target_language : string) : translate_result :=
  let prompt := "Translate to " +:+ target_language +:+ ": " +:+ text in
  match translation_llm prompt with
  | Ok content => Translated (Str.strip content) target_language
  | Raise e => TranslateFailed (exn_str e)
  end.

(** [generate_exercise]: the pair of ['success'] and ['exercise'], with the
    model calls made. *)
Definition generate_exercise (language difficulty : string)
    : (bool * string) * list invocation :=
  let '(result, calls) :=
    chat_with_tutor ("Give me a " +:+ difficulty +:+ " " +:+ language +:+ " exercise")
      [] [] (Some {[ "target_language" := language ]}) in
  (match result with
   | ChatSuccess response _ => (true, response)
   | ChatFailure _ => (false, "")
   end,
   calls).

(** ** Files, clock and identifiers *)

Definition set_files (f : gmap string file_content → gmap string file_content)
    (w : world) : world :=
  World (f (files w)) (clock w) (rng w) (mem0_adds w) (chat_memory w).

(** [os.path.exists(path)] *)
Definition path_exists (path : string) : M bool :=
  λ w, (Ok (bool_decide (is_Some (files w !! path))), w).

(** [with open(path, 'r') as f: json.load(f)] *)
Definition json_load (path : string) : M file_content :=
  λ w, match files w !! path with
       | None => (Raise (Exn "FileNotFoundError" path), w)
       | Some NotJson => (Raise (Exn "JSONDecodeError" path), w)
       | Some data => (Ok data, w)
       end.

(** [with open(path, 'w') as f: json.dump(data, f, indent=2)] *)
Definition json_dump (path : string) (data : file_content) : M unit :=
  λ w, (Ok (), set_files (insert path data) w).

(** [os.remove(path)] *)
Definition os_remove (path : string) : M unit :=
  λ w, (Ok (), set_files (delete path) w).

(** [datetime.now().isoformat()] *)
Definition now : M string :=
  λ w, (Ok (isoformat (clock w)),
        World (files w) (S (clock w)) (rng w) (mem0_adds w) (chat_memory w)).

(** [str(uuid.uuid4())] *)
Definition new_uuid : M string :=
  λ w, (Ok (uuid4 (rng w)),
        World (files w) (clock w) (S (rng w)) (mem0_adds w) (chat_memory w)).

(** [data['messages']] *)
Definition getitem_messages (data : file_content) : M (list stored_message) :=
  match data with
  | JObject d =>
      match messages d with
      | Some msgs => mret msgs
      | None => raise (Exn "KeyError" "'messages'")
      end
  | _ => raise (Exn "TypeError" "list indices must be integers or slices, not str")
  end.

(** [data['messages'] = msgs] *)
Definition setitem_messages (msgs : list stored_message) (data : file_content)
    : M file_content :=
  match data with
  | JObject d => mret (JObject (ConvData (fields d) (Some msgs)))
  | _ => raise (Exn "TypeError" "list indices must be integers or slices, not str")
  end.

(** [data[key] = value] for a string value *)
Definition setitem (key value : string) (data : file_content) : M file_content :=
  match data with
  | JObject d => mret (JObject (ConvData (<[key := value]> (fields d)) (messages d)))
  | _ => raise (Exn "TypeError" "list indices must be integers or slices, not str")
  end.

(** [data.get('messages', [])] *)
Definition get_messages (data : file_content) : M (list stored_message) :=
  match data with
  | JObject d => mret (default [] (messages d))
  | _ => raise (Exn "AttributeError" "'list' object has no attribute 'get'")
  end.

(** ** Conversation store *)

(** [os.path.join(get_conversations_dir(), f"conv_{conversation_id}.json")],
    relative to the data directory. *)
Definition conv_path (conversation_id : string) : string :=
  "conversations/conv_" +:+ conversation_id +:+ ".json".

Definition create_new_conversation (title : string) : M string :=
  try_catch
    (u ← new_uuid;
     let conv_id := Str.take 8 u in
     let filepath := conv_path conv_id in
     created ← now;
     updated ← now;
     _ ← json_dump filepath
           (JObject (ConvData {[ "id" := conv_id; "title" := title;
                                 "created_at" := created; "updated_at" := updated ]}
                              (Some [])));
     mret conv_id)
    (λ e, raise e).

Definition load_conversation (conversation_id : string) : M (list stored_message) :=
  try_catch
    (let filepath := conv_path conversation_id in
     found ← path_exists filepath;
     if (found : bool) then
       data ← json_load filepath;
       get_messages data
     else mret [])
    (λ e, mret []).

Definition add_message_to_conversation (conversation_id role content : string) : M bool :=
  try_catch
    (let filepath := conv_path conversation_id in
     found ← path_exists filepath;
     if negb found then mret false
     else
       data ← json_load filepath;
       id ← new_uuid;
       ts ← now;
       let message : stored_message :=
         {[ "id" := id; "role" := role; "content" := content; "timestamp" := ts ]} in
       msgs ← getitem_messages data;
       data ← setitem_messages (msgs ++ [message]) data;
       updated ← now;
       data ← setitem "updated_at" updated data;
       _ ← json_dump filepath data;
       mret true)
    (λ e, mret false).

Definition update_conversation_title (conversation_id title : string) : M bool :=
  try_catch
    (let filepath := conv_path conversation_id in
     found ← path_exists filepath;
     if negb found then mret false
     else
       data ← json_load filepath;
       data ← setitem "title" title data;
       updated ← now;
       data ← setitem "updated_at" updated data;
       _ ← json_dump filepath data;
       mret true)
    (λ e, mret false).

Definition delete_message_from_conversation (conversation_id message_id : string) : M bool :=
  try_catch
    (let filepath := conv_path conversation_id in
     found ← path_exists filepath;
     if negb found then mret false
     else
       data ← json_load filepath;
       msgs ← getitem_messages data;
       let original_count := length msgs in
       let kept := filter (λ msg : stored_message, msg !! "id" ≠ Some message_id) msgs in
       data ← setitem_messages kept data;
       if decide (length kept = original_count) then mret false
       else
         updated ← now;
         data ← setitem "updated_at" updated data;
         _ ← json_dump filepath data;
         mret true)
    (λ e, mret false).

Definition clear_conversation (conversation_id : string) : M bool :=
  try_catch
    (let filepath := conv_path conversation_id in
     found ← path_exists filepath;
     if negb found then mret false
     else
       data ← json_load filepath;
       data ← setitem_messages [] data;
       updated ← now;
       data ← setitem "updated_at" updated data;
       _ ← json_dump filepath data;
       mret true)
    (λ e, mret false).

Definition delete_conversation (conversation_id : string) : M bool :=
  try_catch
    (let filepath := conv_path conversation_id in
     found ← path_exists filepath;
     if (found : bool) then
       _ ← os_remove filepath;
       mret true
     else mret false)
    (λ e, mret false).

(** ** LangChain buffer and translation log *)

Definition memory_path (user : string) : string := "memory_" +:+ user +:+ ".json".

Definition translations_path (user : string) : string :=
  "translations_" +:+ user +:+ ".json".

Definition chat_memory_add (m : chat_msg) : M unit :=
  λ w, (Ok (), World (files w) (clock w) (rng w) (mem0_adds w) (chat_memory w ++ [m])).

(** [_save_memory]: the loop over the buffer tests [isinstance(message,
    HumanMessage)], and the module imports neither [HumanMessage] nor
    [AIMessage]: with a message in the buffer the body raises [NameError],
    which the method's own handler logs. *)
Definition _save_memory (user : string) : M unit :=
  try_catch
    (λ w,
       match chat_memory w with
       | _ :: _ => raise (Exn "NameError" "name 'HumanMessage' is not defined") w
       | [] =>
           (updated ← now;
            json_dump (memory_path user)
              (JObject (ConvData {[ "user_id" := user; "last_updated" := updated ]}
                                 (Some [])))) w
       end)
    (λ e, mret ()).

(** [translations.append(entry)] on what [json.load] gave. *)
Definition list_append (data : file_content) (entry : translation_entry)
    : M (list translation_entry) :=
  match data with
  | JArray l => mret (l ++ [entry])
  | _ => raise (Exn "AttributeError" "'dict' object has no attribute 'append'")
  end.

Definition _save_translation_to_log (user original translated source target : string)
    (meta : option (gmap string string)) : M unit :=
  try_catch
    (let log_file := translations_path user in
     ts ← now;
     let translation_entry :=
       TranslationEntry original translated source target ts (default ∅ meta) in
     found ← path_exists log_file;
     loaded ← (if (found : bool) then json_load log_file else mret (JArray []));
     translations ← list_append loaded translation_entry;
     let translations :=
       if decide (100 < length translations) then lastn 100 translations
       else translations in
     json_dump log_file (JArray translations))
    (λ e, mret ()).

(** [add_translation_memory]; the result is its ['success'] entry. *)
Definition add_translation_memory (user original translated source target : string)
    (meta : option (gmap string string)) : M bool :=
  try_catch
    (_ ← chat_memory_add (Human ("I want to translate: " +:+ original));
     _ ← chat_memory_add (AI ("Translation: " +:+ translated));
     _ ← _save_memory user;
     _ ← _save_translation_to_log user original translated source target meta;
     ts ← now;
     mret true)
    (λ e, mret false).

(** ** Reading the translation log *)

(** [l[-limit:]] for [limit >= 0]: with [limit = 0] the slice starts at
    index [-0 = 0] and is the whole list. *)
Definition slice_last {A} (limit : nat) (l : list A) : list A :=
  match limit with
  | 0 => l
  | _ => lastn limit l
  end.

(** A filter argument is used when it is truthy: given and not empty. *)
Definition filter_active (language : option string) : bool :=
  match language with
  | Some s => negb (bool_decide (s = ""))
  | None => false
  end.

(** [[t for t in translations if t.get(key) == language]] when the filter is
    active.  Iterating a JSON object yields its keys, strings without a
    [get]: the comprehension raises unless the object is empty. *)
Definition filter_language (proj : translation_entry → string) (language : option string)
    (data : file_content) : M file_content :=
  if filter_active language then
    match data with
    | JArray l =>
        mret (JArray (filter (λ t, Some (proj t) = language) l))
    | JObject d =>
        if bool_decide (fields d = ∅ ∧ messages d = None) then mret (JArray [])
        else raise (Exn "AttributeError" "'str' object has no attribute 'get'")
    | NotJson => raise (Exn "JSONDecodeError" "")
    end
  else mret data.

(** [t.get('source_language')] and [t.get('target_language')] *)
Definition entry_source (t : translation_entry) : string := source_language t.

Definition entry_target (t : translation_entry) : string := target_language t.

(** [filtered_translations[-limit:]]; an object cannot be sliced. *)
Definition slice_entries (limit : nat) (data : file_content) : M (list translation_entry) :=
  match data with
  | JArray l => mret (slice_last limit l)
  | _ => raise (Exn "TypeError" "unhashable type: 'slice'")
  end.

(** [get_translation_history]: the ['translations'] entry of a successful
    result, [None] for [{'success': False, ...}]. *)
Definition get_translation_history (user : string)
    (source_language target_language : option string) (limit : nat)
    : M (option (list translation_entry)) :=
  try_catch
    (let translation_file := translations_path user in
     found ← path_exists translation_file;
     translations ← (if (found : bool) then json_load translation_file
                     else mret (JArray []));
     filtered ← filter_language entry_source source_language translations;
     filtered ← filter_language entry_target target_language filtered;
     shown ← slice_entries limit filtered;
     mret (Some shown))
    (λ e, mret None).

(** ** The LangChain buffer *)

(** [self.memory.clear()] *)
Definition chat_memory_clear : M unit :=
  λ w, (Ok (), World (files w) (clock w) (rng w) (mem0_adds w) []).

Definition clear_conversation_memory (user : string) : M unit :=
  try_catch
    (_ ← chat_memory_clear;
     _save_memory user)
    (λ e, mret ()).

(** [msg[key]] on a message dictionary *)
Definition msg_getitem (msg : stored_message) (key : string) : M string :=
  match msg !! key with
  | Some v => mret v
  | None => raise (Exn "KeyError" key)
  end.

(** The loop of [add_conversation]: a user or assistant message goes to the
    buffer, a message of another role is passed over. *)
Fixpoint buffer_messages (msgs : list stored_message) : M unit :=
  match msgs with
  | [] => mret ()
  | msg :: rest =>
      role ← msg_getitem msg "role";
      _ ← (if bool_decide (role = "user") then
             content ← msg_getitem msg "content";
             chat_memory_add (Human content)
           else
             role ← msg_getitem msg "role";
             if bool_decide (role = "assistant") then
               content ← msg_getitem msg "content";
               chat_memory_add (AI content)
             else mret ());
      buffer_messages rest
  end.

(** [add_conversation]: the ['message_count'] entry of a successful result,
    [None] for [{'success': False, ...}]. *)
Definition add_conversation (user : string) (msgs : list stored_message)
    : M (option nat) :=
  try_catch
    (_ ← buffer_messages msgs;
     _ ← _save_memory user;
     ts ← now;
     mret (Some (length msgs)))
    (λ e, mret None).

(** ** Listing the conversations *)

(** One entry of [get_all_conversations]. *)
Record conv_summary := ConvSummary {
  s_id : string;
  s_title : string;
  s_created_at : string;
  s_updated_at : string;
  s_message_count : nat }.

(** [os.listdir(conv_dir)]: the names of the entries of the conversations
    directory, in the order the system gives them. *)
Variable listdir : gmap string file_content → list string.

Definition os_listdir : M (list string) := λ w, (Ok (listdir (files w)), w).

(** [os.path.join(conv_dir, filename)], relative to the data directory. *)
Definition conv_file (filename : string) : string := "conversations/" +:+ filename.

(** [s[n:]] *)
Fixpoint str_drop (n : nat) (s : string) : string :=
  match n, s with
  | S n', String _ s' => str_drop n' s'
  | _, _ => s
  end.

(** [s[5:-5]] *)
Definition strip_conv_affixes (s : string) : string :=
  str_drop 5 (Str.take (String.length s - 5) s).

(** [hay.endswith(needle)] *)
Definition endswith (needle hay : string) : bool :=
  Str.startswith (String.rev needle) (String.rev hay).

(** The dictionary built for one file.  Its defaults are evaluated whether
    used or not: the clock is read twice. *)
Definition summarize (filename : string) : M conv_summary :=
  data ← json_load (conv_file filename);
  match data with
  | JObject d =>
      created_default ← now;
      updated_default ← now;
      mret (ConvSummary
              (default (strip_conv_affixes filename) (fields d !! "id"))
              (default "New Chat" (fields d !! "title"))
              (default created_default (fields d !! "created_at"))
              (default (default updated_default (fields d !! "created_at"))
                       (fields d !! "updated_at"))
              (length (default [] (messages d))))
  | _ => raise (Exn "AttributeError" "'list' object has no attribute 'get'")
  end.

(** The loop over the directory: a file that cannot be read is logged and
    passed over. *)
Fixpoint read_conversations (names : list string) : M (list conv_summary) :=
  match names with
  | [] => mret []
  | filename :: rest =>
      if endswith ".json" filename && Str.startswith "conv_" filename then
        r ← try_catch (s ← summarize filename; mret (Some s)) (λ e, mret None);
        conversations ← read_conversations rest;
        mret (match r with
              | Some s => s :: conversations
              | None => conversations
              end)
      else read_conversations rest
  end.

(** [conversations.sort(key=updated_at, reverse=True)]: the sort is stable,
    so an entry goes before the first one whose key is not greater. *)
Fixpoint insert_desc (x : conv_summary) (l : list conv_summary) : list conv_summary :=
  match l with
  | [] => [x]
  | y :: l' =>
      if bool_decide (String.le (s_updated_at y) (s_updated_at x)) then x :: y :: l'
      else y :: insert_desc x l'
  end.

Definition sort_desc (l : list conv_summary) : list conv_summary :=
  foldr insert_desc [] l.

Definition get_all_conversations : M (list conv_summary) :=
  try_catch
    (names ← os_listdir;
     conversations ← read_conversations names;
     mret (sort_desc conversations))
    (λ e, mret []).

(** ** Mem0 *)

Definition mem0_search_call (query user : string) (limit : nat) : M mem0_response :=
  λ w, (mem0_search (mem0_adds w) query user limit, w).

(** [self.mem0.add(messages, user_id=user)]: no metadata is passed. *)
Definition mem0_add (msgs : list stored_message) (user : string) : M unit :=
  λ w, let call := AddCall msgs user ∅ in
       match mem0_add_raises call with
       | Some e => (Raise e, w)
       | None =>
           (Ok (), World (files w) (clock w) (rng w) (mem0_adds w ++ [call])
                         (chat_memory w))
       end.

(** A dict answers under ["results"], else under ["memories"], else with
    nothing; a list is taken as it is. *)
Definition results_list (mem0_results : mem0_response) : list mem_item :=
  match mem0_results with
  | RespDict d => default (default [] (d !! "memories")) (d !! "results")
  | RespList l => l
  | RespOther => []
  end.

(** [m.get("memory", m.get("text", ""))], the string itself, or [str(m)]. *)
Definition memory_text (m : mem_item) : string :=
  match m with
  | ItemDict d => default (default "" (d !! "text")) (d !! "memory")
  | ItemStr s => s
  | ItemOther repr => repr
  end.

(** The memory search of [_send_message]. *)
Definition search_memories (a : app) (message : string) : M (list string) :=
  if mem0 a then
    try_catch
      (mem0_results ← mem0_search_call message (user_id a) 5;
       mret (filter (λ t : string, t ≠ "") (memory_text <$> results_list mem0_results)))
      (λ e, mret [])
  else mret [].

(** ** The turn ([tutor_app.py]) *)

Definition unavailable_reply : string :=
  "Sorry, the tutor service is not available. Please check if Ollama is running.".

(** [_send_message]: nothing happens while a turn is in flight or for a
    blank message; otherwise the user message is saved, the history loaded
    and the memories searched, in this order.  The result holds what the
    worker thread is started with. *)
Definition _send_message (a : app) (message : string) : M (app * option pending) :=
  if is_processing a || bool_decide (Str.strip message = "") then mret (a, None)
  else if negb (tutor_service a) then
    mret (chat_area_add "assistant" unavailable_reply a, None)
  else
    let a := set_is_processing true a in
    let a := chat_area_add "user" message a in
    _ ← match active_conversation a with
        | Some cid => add_message_to_conversation cid "user" message
        | None => mret false
        end;
    conversation_history ← match active_conversation a with
                           | Some cid => load_conversation cid
                           | None => mret []
                           end;
    mem0_memories ← search_memories a message;
    let a := set_pending_user_message message a in
    mret (a, Some (Pending message conversation_history mem0_memories)).

(** [get_response], the body of the worker thread: the reply handed to
    [_handle_response], and the model calls made on the way. *)
Definition get_response (a : app) (p : pending) : string * list invocation :=
  let '(result, calls) :=
    chat_with_tutor (p_message p) (p_history p) (p_memories p) (user_profile a) in
  (match result with
   | ChatSuccess response _ => response
   | ChatFailure error => error_apology error
   end,
   calls).

(** [first_msg[:50] + ("..." if len(first_msg) > 50 else "")] *)
Definition title_of (first_msg : string) : string :=
  Str.take 50 first_msg +:+ (if decide (50 < String.length first_msg) then "..." else "").

(** [_update_conversation_title].  Its last call, [_load_conversations],
    redraws the sidebar; it selects or creates a conversation only when none
    is current or none is stored, and here one is current and was just
    read. *)
Definition _update_conversation_title (a : app) : M unit :=
  match active_conversation a with
  | None => mret ()
  | Some cid =>
      try_catch
        (msgs ← load_conversation cid;
         match msgs with
         | first :: _ =>
             let first_msg := default "New Chat" (first !! "content") in
             let title := title_of first_msg in
             _ ← update_conversation_title cid title;
             mret ()
         | [] => mret ()
         end)
        (λ e, mret ())
  end.

(** [store_in_mem0], the body of the second worker thread. *)
Definition store_in_mem0 (a : app) (pending_user_message response : string) : M unit :=
  try_catch
    (let profile := default ∅ (user_profile a) in
     let user_name := default "Student" (profile !! "user_name") in
     let target_lang := default "Spanish" (profile !! "target_language") in
     let msgs : list stored_message :=
       [ {[ "role" := "user";
            "content" := user_name +:+ " (learning " +:+ target_lang +:+ ") said: "
                         +:+ pending_user_message ]};
         {[ "role" := "assistant";
            "content" := "Tutor responded: " +:+ response ]} ] in
     mem0_add msgs (user_id a))
    (λ e, mret ()).

(** [_handle_response], followed by the thread it starts. *)
Definition _handle_response (a : app) (response : string) : M app :=
  let a := chat_area_add "assistant" response a in
  _ ← match active_conversation a with
      | Some cid =>
          _ ← add_message_to_conversation cid "assistant" response;
          _update_conversation_title a
      | None => mret ()
      end;
  _ ← (if mem0 a then
         match _pending_user_message a with
         | Some pending_user_message => store_in_mem0 a pending_user_message response
         | None => mret ()
         end
       else mret ());
  mret (set_is_processing false a).

(** One turn, in the order the event loop runs it: [_send_message], the
    worker [get_response], [_handle_response] back on the main thread, and
    the Mem0 worker run to its end.  The result is the new application state
    and, when a turn took place, the reply with the model calls made. *)
Definition handle_turn (a : app) (message : string)
    : M (app * option (string * list invocation)) :=
  '(a, started) ← _send_message a message;
  match started with
  | None => mret (a, None)
  | Some p =>
      let '(response, calls) := get_response a p in
      a ← _handle_response a response;
      mret (a, Some (response, calls))
  end.

(** ** Deleting and clearing from the chat view ([tutor_app.py]) *)

Definition set_chat_area (shown : list (string * string)) (a : app) : app :=
  App (memory_service a) (tutor_service a) (mem0 a) (current_conversation_id a)
      (user_id a) (user_profile a) (is_processing a) (_pending_user_message a) shown.

(** [ChatArea.load_messages]: the view is emptied, then every message is
    added with its role (["user"] when missing) and content. *)
Definition load_messages (msgs : list stored_message) (a : app) : app :=
  foldl (λ a msg, chat_area_add (default "user" (msg !! "role"))
                                (default "" (msg !! "content")) a)
        (set_chat_area [] a) msgs.

(** [TutorApp._delete_message] *)
Definition _delete_message (a : app) (message_id : string) : M app :=
  match active_conversation a with
  | None => mret a
  | Some cid =>
      try_catch
        (_ ← delete_message_from_conversation cid message_id;
         msgs ← load_conversation cid;
         mret (load_messages msgs a))
        (λ e, mret a)
  end.

(** [TutorApp._clear_chat] *)
Definition _clear_chat (a : app) : M app :=
  match active_conversation a with
  | None => mret a
  | Some cid =>
      try_catch
        (_ ← clear_conversation cid;
         mret (set_chat_area [] a))
        (λ e, mret a)
  end.

(** ** What the properties observe *)

(** The message list of a stored conversation. *)
Definition stored_messages (w : world) (cid : string) : option (list stored_message) :=
  match files w !! conv_path cid with
  | Some (JObject d) => messages d
  | _ => None
  end.

(** The title of a stored conversation. *)
Definition stored_title (w : world) (cid : string) : option string :=
  match files w !! conv_path cid with
  | Some (JObject d) => fields d !! "title"
  | _ => None
  end.

(** The message [add_message_to_conversation] builds in the world [w]. *)
Definition new_message (role content : string) (w : world) : stored_message :=
  {[ "id" := uuid4 (rng w); "role" := role; "content" := content;
     "timestamp" := isoformat (clock w) ]}.

(** The translation log of a user: the entries of the file, none when
    there is no file; [None] when the file does not hold a list. *)
Definition translation_log (w : world) (user : string) : option (list translation_entry) :=
  match files w !! translations_path user with
  | None => Some []
  | Some (JArray l) => Some l
  | Some _ => None
  end.

(** A turn of [message] takes place in the stored conversation [cid] whose
    messages are [msgs]: [_send_message] passes its guards, and the
    conversation is current and on disk. *)
Definition turn_in (a : app) (message cid : string) (msgs : list stored_message)
    (w : world) : Prop :=
  is_processing a = false ∧ Str.strip message ≠ "" ∧ tutor_service a = true
  ∧ active_conversation a = Some cid ∧ stored_messages w cid = Some msgs.

(** The memories [_send_message] collects when the index holds [index]. *)
Definition found_memories (a : app) (message : string) (index : list add_call)
    : list string :=
  match mem0 a, mem0_search index message (user_id a) 5 with
  | true, Ok mem0_results =>
      filter (λ t : string, t ≠ "") (memory_text <$> results_list mem0_results)
  | _, _ => []
  end.

(** What [_send_message] hands to the worker in a conversation whose stored
    messages were [msgs]. *)
Definition turn_pending (a : app) (message : string) (msgs : list stored_message)
    (w : world) : pending :=
  Pending message (msgs ++ [new_message "user" message w])
          (found_memories a message (mem0_adds w)).

(** The payload [store_in_mem0] hands to [mem0.add] for an exchange. *)
Definition exchange_call (a : app) (message response : string) : add_call :=
  let profile := default ∅ (user_profile a) in
  let user_name := default "Student" (profile !! "user_name") in
  let target_lang := default "Spanish" (profile !! "target_language") in
  AddCall
    [ {[ "role" := "user";
         "content" := user_name +:+ " (learning " +:+ target_lang +:+ ") said: "
                      +:+ message ]};
      {[ "role" := "assistant"; "content" := "Tutor responded: " +:+ response ]} ]
    (user_id a) ∅.

(** ** Example collaborators and states *)

Definition digit (n : nat) : string := String (ascii_of_nat (48 + n)) EmptyString.

Definition demo_isoformat (n : nat) : string := "2026-01-01T00:00:0" +:+ digit n.

Definition demo_uuid4 (n : nat) : string := "uuid-" +:+ digit n.

(** A router backend: "boom" times out, "hola" is answered in plain text,
    "translate cat" yields a tool call whose argument string is not JSON,
    anything else a [translate] call with decoded arguments. *)
Definition demo_chat (model user_message : string) : result chat_response :=
  if decide (user_message = "boom") then
    Raise (Exn "TimeoutError" "timed out")
  else if decide (user_message = "hola") then
    Ok (ChatResponse [] (Some "Hola! How can I help?"))
  else if decide (user_message = "translate cat") then
    Ok (ChatResponse [ToolCall "translate" (RawStr "{text: cat")] None)
  else
    Ok (ChatResponse
          [ToolCall "translate"
             (RawVal (VDict {[ "text" := "good morning";
                               "target_language" := "French" ]}))] None).

(** A decoder that accepts the empty object only. *)
Definition demo_loads (s : string) : option pyval :=
  if decide (s = "{}") then Some (VDict ∅) else None.

Definition demo_translation_llm (prompt : string) : result string :=
  if decide (prompt = "Translate to French: good morning") then Ok " Bonjour "
  else Raise (Exn "ConnectionError" "connection refused").

Definition demo_reasoning_llm (system task : string) : result string :=
  Ok "Hola! Que tal?".

Definition failing_reasoning_llm (system task : string) : result string :=
  Raise (Exn "ConnectionError" "connection refused").

Definition demo_search (index : list add_call) (query user : string) (limit : nat)
    : result mem0_response :=
  Ok (RespDict {[ "results" := [ItemDict {[ "memory" := "likes coffee" ]}; ItemStr ""] ]}).

Definition failing_search (index : list add_call) (query user : string) (limit : nat)
    : result mem0_response :=
  Raise (Exn "RuntimeError" "vector store is locked").

Definition demo_add_raises (c : add_call) : option exn := None.

Definition demo_app : app :=
  App true true true (Some "c1") "u1"
      (Some {[ "user_name" := "Ana"; "target_language" := "French" ]})
      false None [].

Definition stored_msg (id role content : string) : stored_message :=
  {[ "id" := id; "role" := role; "content" := content;
     "timestamp" := "2025-12-31T23:59:59" ]}.

Definition demo_conv (title : string) (msgs : list stored_message) : file_content :=
  JObject (ConvData {[ "id" := "c1"; "title" := title;
                       "created_at" := "2025-12-31T23:00:00";
                       "updated_at" := "2025-12-31T23:59:59" ]}
                    (Some msgs)).

(** A world whose only file is the conversation [c1]. *)
Definition demo_world (title : string) (msgs : list stored_message) : world :=
  World {[ conv_path "c1" := demo_conv title msgs ]} 0 0 [] [].

Definition empty_world : world := World ∅ 0 0 [] [].

Definition old_entry : translation_entry :=
  TranslationEntry "dog" "chien" "English" "French" "2025-12-31T23:59:59" ∅.

(** A world whose translation log for the user [u1] holds 100 entries. *)
Definition full_log_world : world :=
  World {[ translations_path "u1" := JArray (replicate 100 old_entry) ]} 0 0 [] [].

(** A content of 201 characters: 200 times [x], then [!]. *)
Definition long_content : string :=
  Str.replicate 200 "x"%char +:+ "!".

(** Seven stored messages, the most recent one carrying [long_content]. *)
Definition long_history : list stored_message :=
  [ stored_msg "m1" "user" "one"; stored_msg "m2" "assistant" "two";
    stored_msg "m3" "user" "three"; stored_msg "m4" "assistant" "four";
    stored_msg "m5" "user" "five"; stored_msg "m6" "assistant" "six";
    stored_msg "m7" "user" long_content ].

(** * Properties *)

(** ** Strings and lists *)

(** stdpp keeps [simpl] from unfolding string concatenation; these two
    equations are its computation rules. *)
Lemma str_app_nil_l (t : string) : "" +:+ t = t.
Proof. reflexivity. Qed.

Lemma str_app_cons (c : ascii) (s t : string) :
  String c s +:+ t = String c (s +:+ t).
Proof. reflexivity. Qed.

Lemma str_app_nil_r (s : string) : s +:+ "" = s.
Proof. induction s as [|c s IH]; [done |]. by rewrite str_app_cons, IH. Qed.

Lemma str_app_assoc (s t u : string) : (s +:+ t) +:+ u = s +:+ t +:+ u.
Proof. induction s as [|c s IH]; [done |]. by rewrite !str_app_cons, IH. Qed.

Lemma str_length_app (s t : string) :
  String.length (s +:+ t) = String.length s + String.length t.
Proof.
  induction s as [|c s IH]; [done |].
  rewrite str_app_cons. simpl. by rewrite IH.
Qed.

Lemma take_all (n : nat) (s : string) : String.length s ≤ n → Str.take n s = s.
Proof.
  revert n. induction s as [|c s IH]; intros [|n] Hn; simpl in *; try done; try lia.
  f_equal. apply IH. lia.
Qed.

Lemma take_length (n : nat) (s : string) :
  n ≤ String.length s → String.length (Str.take n s) = n.
Proof.
  revert n. induction s as [|c s IH]; intros [|n] Hn; simpl in *; try done; try lia.
  f_equal. apply IH. lia.
Qed.

Lemma contains_app_r (pre s t : string) :
  Str.contains s t → Str.contains s (pre +:+ t).
Proof.
  intros (u & v & ->). exists (pre +:+ u), v. by rewrite str_app_assoc.
Qed.

Lemma contains_prefix (s post : string) : Str.contains s (s +:+ post).
Proof. by exists "", post. Qed.

Lemma contains_refl (s : string) : Str.contains s s.
Proof. exists "", "". by rewrite str_app_nil_l, str_app_nil_r. Qed.

Lemma lastn_all {A} (n : nat) (l : list A) : length l ≤ n → lastn n l = l.
Proof. intros H. unfold lastn. by replace (length l - n) with 0 by lia. Qed.

Lemma lastn_length {A} (n : nat) (l : list A) :
  length (lastn n l) = n `min` length l.
Proof. unfold lastn. rewrite length_drop. lia. Qed.

Lemma lastn_snoc {A} (n : nat) (l : list A) (x : A) :
  lastn (S n) (l ++ [x]) = lastn n l ++ [x].
Proof.
  unfold lastn. rewrite length_app. simpl.
  replace (length l + 1 - S n) with (length l - n) by lia.
  apply drop_app_le. lia.
Qed.

(** ** Intent router *)

Lemma route_message_total (user_message : string) :
  ∃ r, _route_message user_message = Ok r.
Proof.
  unfold _route_message, try_except, mbind, result_bind.
  destruct (ollama_chat function_model user_message) as [response | e]; [| eauto].
  destruct (tool_calls response) as [| tc rest]; [| eauto].
  destruct (content_preview response); eauto.
Qed.

(** C1.  Routing never raises.  When the routing call raises, or the model
    answers without a tool call, the decision is the chat tool with no
    argument; when the first tool call carries an argument string that
    [json.loads] rejects, the decision keeps the tool name and has an empty
    argument map. *)
Theorem route_message_fallback (user_message : string) :
  (∃ r, _route_message user_message = Ok r)
  ∧ (∀ e, ollama_chat function_model user_message = Raise e →
          _route_message user_message = Ok (Route "chat" (VDict ∅)))
  ∧ (∀ response, ollama_chat function_model user_message = Ok response →
                 tool_calls response = [] →
                 _route_message user_message = Ok (Route "chat" (VDict ∅)))
  ∧ (∀ response tc rest s,
        ollama_chat function_model user_message = Ok response →
        tool_calls response = tc :: rest →
        fn_arguments tc = RawStr s → json_loads s = None →
        _route_message user_message = Ok (Route (fn_name tc) (VDict ∅))).
Proof.
  split; [apply route_message_total |].
  unfold _route_message, try_except, mbind, result_bind.
  split; [| split].
  - intros e ->. reflexivity.
  - intros response -> ->. by destruct (content_preview response).
  - intros response tc rest s -> -> Hs Hj. unfold decode_args. by rewrite Hs, Hj.
Qed.

(** ** Conversation store *)

Ltac run :=
  unfold try_catch, mbind, M_bind, mret, M_ret, raise, path_exists, json_load,
    json_dump, os_remove, now, new_uuid, getitem_messages, setitem_messages,
    setitem, get_messages, set_files, chat_memory_add, list_append,
    mem0_search_call, mem0_add;
  cbn [files clock rng mem0_adds chat_memory fields messages negb fst snd].

Ltac run_with Hf Hm :=
  repeat first [ rewrite Hf | rewrite Hm
               | rewrite bool_decide_eq_true_2 by eauto
               | rewrite bool_decide_eq_false_2 by (by intros [? ?])
               | progress run ].

Lemma add_message_stored cid role content w d msgs :
  files w !! conv_path cid = Some (JObject d) → messages d = Some msgs →
  add_message_to_conversation cid role content w =
  (Ok true,
   World (<[conv_path cid :=
              JObject (ConvData (<["updated_at" := isoformat (S (clock w))]> (fields d))
                                (Some (msgs ++ [new_message role content w])))]> (files w))
         (S (S (clock w))) (S (rng w)) (mem0_adds w) (chat_memory w)).
Proof.
  intros Hf Hm. unfold add_message_to_conversation. run_with Hf Hm. reflexivity.
Qed.

Lemma add_message_missing cid role content w :
  files w !! conv_path cid = None →
  add_message_to_conversation cid role content w = (Ok false, w).
Proof.
  intros Hf. unfold add_message_to_conversation. run_with Hf Hf. reflexivity.
Qed.

Lemma load_conversation_stored cid w d :
  files w !! conv_path cid = Some (JObject d) →
  load_conversation cid w = (Ok (default [] (messages d)), w).
Proof.
  intros Hf. unfold load_conversation. run_with Hf Hf. reflexivity.
Qed.

Lemma load_conversation_missing cid w :
  files w !! conv_path cid = None → load_conversation cid w = (Ok [], w).
Proof.
  intros Hf. unfold load_conversation. run_with Hf Hf. reflexivity.
Qed.

Lemma update_title_stored cid title w d :
  files w !! conv_path cid = Some (JObject d) →
  update_conversation_title cid title w =
  (Ok true,
   World (<[conv_path cid :=
              JObject (ConvData (<["updated_at" := isoformat (clock w)]>
                                   (<["title" := title]> (fields d)))
                                (messages d))]> (files w))
         (S (clock w)) (rng w) (mem0_adds w) (chat_memory w)).
Proof.
  intros Hf. unfold update_conversation_title. run_with Hf Hf. reflexivity.
Qed.

Lemma filter_keeps_all {A} (P : A → Prop) `{∀ x, Decision (P x)} (l : list A) :
  (∀ x, x ∈ l → P x) → filter P l = l.
Proof.
  induction l as [| x l IH]; intros Hall; [done |].
  rewrite filter_cons_True by (apply Hall; left).
  f_equal. apply IH. intros y Hy. apply Hall. by right.
Qed.

(** C9.  Deleting a message identifier that no message of an existing
    conversation carries returns [False] without raising and leaves the
    stored conversation, and the whole world, as it was. *)
Theorem delete_absent_message_noop cid message_id w d msgs :
  files w !! conv_path cid = Some (JObject d) → messages d = Some msgs →
  (∀ msg : stored_message, msg ∈ msgs → msg !! "id" ≠ Some message_id) →
  delete_message_from_conversation cid message_id w = (Ok false, w)
  ∧ stored_messages (snd (delete_message_from_conversation cid message_id w)) cid
    = Some msgs
  ∧ length <$> stored_messages (snd (delete_message_from_conversation cid message_id w)) cid
    = Some (length msgs).
Proof.
  intros Hf Hm Habsent.
  assert (delete_message_from_conversation cid message_id w = (Ok false, w)) as Hrun.
  { unfold delete_message_from_conversation. run_with Hf Hm.
    rewrite (filter_keeps_all _ msgs Habsent).
    rewrite decide_True by done. reflexivity. }
  rewrite Hrun. cbn [snd]. unfold stored_messages. rewrite Hf, Hm. done.
Qed.

(** C6, as the code has it.  For a conversation identifier with no file,
    [add_message_to_conversation] returns [False] and [load_conversation]
    returns the empty list; neither raises, and the world is unchanged. *)
Theorem unknown_conversation_is_not_an_error cid role content w :
  files w !! conv_path cid = None →
  add_message_to_conversation cid role content w = (Ok false, w)
  ∧ load_conversation cid w = (Ok [], w).
Proof.
  intros Hf. split;
    [by apply add_message_missing | by apply load_conversation_missing].
Qed.

(** ** Translation log *)

(** With a message in the buffer, [_save_memory] raises inside its own
    [try] and leaves the world as it was. *)
Lemma save_memory_nonempty user w :
  chat_memory w ≠ [] → _save_memory user w = (Ok (), w).
Proof.
  intros Hne. unfold _save_memory. run.
  destruct (chat_memory w); [done | reflexivity].
Qed.

(** The entry [_save_translation_to_log] appends in the world [w]. *)
Lemma save_translation_to_log_readable user original translated source target meta w l :
  translation_log w user = Some l →
  _save_translation_to_log user original translated source target meta w =
  (Ok (),
   World (<[translations_path user :=
              JArray (lastn 100
                        (l ++ [TranslationEntry original translated source target
                                 (isoformat (clock w)) (default ∅ meta)]))]> (files w))
         (S (clock w)) (rng w) (mem0_adds w) (chat_memory w)).
Proof.
  unfold translation_log, _save_translation_to_log. intros Hl.
  set (entry := TranslationEntry _ _ _ _ _ _).
  assert (∀ k : list translation_entry,
            (if decide (100 < length k) then lastn 100 k else k) = lastn 100 k) as Hcut.
  { intros k. case_decide; [done |]. symmetry. apply lastn_all. lia. }
  destruct (files w !! translations_path user) as [[| d | l'] |] eqn:Hf;
    simplify_eq; run_with Hf Hf; by rewrite Hcut.
Qed.

Lemma save_translation_to_log_unreadable user original translated source target meta w :
  translation_log w user = None →
  files (snd (_save_translation_to_log user original translated source target meta w))
  = files w.
Proof.
  unfold translation_log, _save_translation_to_log. intros Hl.
  destruct (files w !! translations_path user) as [[| d | l'] |] eqn:Hf;
    simplify_eq; run_with Hf Hf; reflexivity.
Qed.

Lemma add_translation_memory_readable user original translated source target meta w l :
  translation_log w user = Some l →
  add_translation_memory user original translated source target meta w =
  (Ok true,
   World (<[translations_path user :=
              JArray (lastn 100
                        (l ++ [TranslationEntry original translated source target
                                 (isoformat (clock w)) (default ∅ meta)]))]> (files w))
         (S (S (clock w))) (rng w) (mem0_adds w)
         ((chat_memory w ++ [Human ("I want to translate: " +:+ original)])
          ++ [AI ("Translation: " +:+ translated)])).
Proof.
  intros Hl. unfold add_translation_memory.
  set (w2 := World (files w) (clock w) (rng w) (mem0_adds w)
               ((chat_memory w ++ [Human ("I want to translate: " +:+ original)])
                ++ [AI ("Translation: " +:+ translated)])).
  assert (_save_memory user w2 = (Ok (), w2)) as Hsave.
  { apply save_memory_nonempty. subst w2. cbn [chat_memory].
    by destruct (chat_memory w ++ _). }
  assert (translation_log w2 user = Some l) as Hlog by done.
  pose proof (save_translation_to_log_readable user original translated source
                target meta w2 l Hlog) as Hrun.
  unfold try_catch, mbind, M_bind, chat_memory_add.
  cbn [files clock rng mem0_adds chat_memory].
  fold w2. rewrite Hsave, Hrun. run. reflexivity.
Qed.

Lemma add_translation_memory_unreadable user original translated source target meta w :
  translation_log w user = None →
  ∃ w', add_translation_memory user original translated source target meta w
        = (Ok true, w')
        ∧ files w' = files w.
Proof.
  intros Hl. unfold add_translation_memory.
  set (w2 := World (files w) (clock w) (rng w) (mem0_adds w)
               ((chat_memory w ++ [Human ("I want to translate: " +:+ original)])
                ++ [AI ("Translation: " +:+ translated)])).
  assert (_save_memory user w2 = (Ok (), w2)) as Hsave.
  { apply save_memory_nonempty. subst w2. cbn [chat_memory].
    by destruct (chat_memory w ++ _). }
  assert (translation_log w2 user = None) as Hlog by done.
  pose proof (save_translation_to_log_unreadable user original translated source
                target meta w2 Hlog) as Hfiles.
  assert (∃ w3, _save_translation_to_log user original translated source target
                  meta w2 = (Ok (), w3)) as [w3 Hrun].
  { unfold _save_translation_to_log, try_catch.
    match goal with
    | |- context [match ?body with _ => _ end] =>
        destruct body as [[[] | e] w3]; eauto
    end. }
  rewrite Hrun in Hfiles. cbn [snd] in Hfiles.
  unfold try_catch, mbind, M_bind, chat_memory_add.
  cbn [files clock rng mem0_adds chat_memory].
  fold w2. rewrite Hsave, Hrun. run. eexists. split; [reflexivity |]. done.
Qed.

(** C10.  After [add_translation_memory] the translation log of the user
    holds at most 100 entries.  When the log was readable with entries [l],
    it now holds the last 100 of [l] followed by the new entry: the new
    entry is last, the order is the order of insertion, and once [l] had 99
    entries or more exactly 100 remain.  A file that does not hold a list is
    left as it is. *)
Theorem translation_log_bounded user original translated source target meta w :
  let w' := snd (add_translation_memory user original translated source target meta w) in
  let entry := TranslationEntry original translated source target
                 (isoformat (clock w)) (default ∅ meta) in
  fst (add_translation_memory user original translated source target meta w) = Ok true
  ∧ length (default [] (translation_log w' user)) ≤ 100
  ∧ (translation_log w user = None → translation_log w' user = None)
  ∧ (∀ l, translation_log w user = Some l →
          translation_log w' user = Some (lastn 100 (l ++ [entry]))
          ∧ lastn 100 (l ++ [entry]) = lastn 99 l ++ [entry]
          ∧ length (lastn 100 (l ++ [entry])) = 100 `min` S (length l)).
Proof.
  intros w' entry. subst w'.
  destruct (translation_log w user) as [l |] eqn:Hl.
  - rewrite (add_translation_memory_readable _ _ _ _ _ _ _ l Hl). cbn [fst snd].
    assert (∀ k c cm, translation_log
                   (World (<[translations_path user := JArray k]> (files w))
                      c (rng w) (mem0_adds w) cm) user
                 = Some k) as Hnew.
    { intros k c cm. unfold translation_log. cbn [files]. by rewrite lookup_insert_eq. }
    rewrite Hnew. cbn [from_option id].
    split; [done |]. split; [rewrite lastn_length; lia |].
    split; [done |]. intros l' [= <-].
    split; [done |]. split; [apply lastn_snoc |].
    rewrite lastn_length, length_app. cbn [length]. lia.
  - destruct (add_translation_memory_unreadable user original translated source
                target meta w Hl) as (w' & -> & Hfiles).
    cbn [fst snd]. unfold translation_log in *. rewrite Hfiles, Hl. cbn.
    split; [done |]. split; [lia |]. split; [done |]. intros l' [=].
Qed.

(** ** The steps of a turn *)

Lemma stored_messages_inv w cid msgs :
  stored_messages w cid = Some msgs →
  ∃ d, files w !! conv_path cid = Some (JObject d) ∧ messages d = Some msgs.
Proof.
  unfold stored_messages. intros H.
  destruct (files w !! conv_path cid) as [[| d | l] |]; try done. eauto.
Qed.

Lemma active_conversation_chat_area_add role text a :
  active_conversation (chat_area_add role text a) = active_conversation a.
Proof. reflexivity. Qed.

Lemma active_conversation_set_is_processing b a :
  active_conversation (set_is_processing b a) = active_conversation a.
Proof. reflexivity. Qed.

Lemma search_memories_run a message w :
  search_memories a message w = (Ok (found_memories a message (mem0_adds w)), w).
Proof.
  unfold search_memories, found_memories. destruct (mem0 a); [| reflexivity].
  run. by destruct (mem0_search (mem0_adds w) message (user_id a) 5).
Qed.

(** [_send_message] in a stored conversation: the user message is appended,
    and the history handed to the worker is the stored list read back. *)
Lemma send_message_in_turn a message cid msgs w :
  turn_in a message cid msgs w →
  ∃ d,
    files w !! conv_path cid = Some (JObject d) ∧ messages d = Some msgs
    ∧ _send_message a message w =
      (Ok (set_pending_user_message message
             (chat_area_add "user" message (set_is_processing true a)),
           Some (Pending message (msgs ++ [new_message "user" message w])
                   (found_memories a message (mem0_adds w)))),
       World (<[conv_path cid :=
                  JObject (ConvData (<["updated_at" := isoformat (S (clock w))]> (fields d))
                                    (Some (msgs ++ [new_message "user" message w])))]>
                (files w))
             (S (S (clock w))) (S (rng w)) (mem0_adds w) (chat_memory w)).
Proof.
  intros (Hproc & Hmsg & Htutor & Hactive & Hstored).
  destruct (stored_messages_inv _ _ _ Hstored) as (d & Hf & Hm).
  exists d. split; [done |]. split; [done |].
  unfold _send_message. rewrite Hproc, Htutor.
  rewrite bool_decide_eq_false_2 by done. cbn [orb negb].
  unfold mbind, M_bind.
  rewrite active_conversation_chat_area_add, active_conversation_set_is_processing, Hactive.
  rewrite (add_message_stored cid "user" message w d msgs Hf Hm).
  set (w1 := World _ _ _ _ _).
  rewrite (load_conversation_stored cid w1 _ (lookup_insert_eq _ _ _)).
  cbn [messages from_option id].
  rewrite search_memories_run. reflexivity.
Qed.

Lemma update_title_in_turn a cid w d first rest :
  active_conversation a = Some cid →
  files w !! conv_path cid = Some (JObject d) → messages d = Some (first :: rest) →
  _update_conversation_title a w =
  (Ok (),
   World (<[conv_path cid :=
              JObject (ConvData
                         (<["updated_at" := isoformat (clock w)]>
                            (<["title" := title_of (default "New Chat" (first !! "content"))]>
                               (fields d)))
                         (Some (first :: rest)))]> (files w))
         (S (clock w)) (rng w) (mem0_adds w) (chat_memory w)).
Proof.
  intros Hactive Hf Hm. unfold _update_conversation_title. rewrite Hactive.
  unfold try_catch, mbind, M_bind.
  rewrite (load_conversation_stored cid w d Hf), Hm. cbn [from_option id].
  rewrite (update_title_stored cid _ w d Hf), Hm. reflexivity.
Qed.

Lemma store_in_mem0_run a pending_user_message response w :
  store_in_mem0 a pending_user_message response w =
  (Ok (),
   World (files w) (clock w) (rng w)
         (match mem0_add_raises (exchange_call a pending_user_message response) with
          | None => mem0_adds w ++ [exchange_call a pending_user_message response]
          | Some _ => mem0_adds w
          end)
         (chat_memory w)).
Proof.
  unfold store_in_mem0, exchange_call. run.
  destruct (mem0_add_raises _); [| reflexivity]. by destruct w.
Qed.

(** The index after the Mem0 worker of a turn has run. *)
Lemma handle_response_in_turn a response cid msgs w d :
  active_conversation a = Some cid →
  files w !! conv_path cid = Some (JObject d) → messages d = Some msgs →
  ∃ w', _handle_response a response w
        = (Ok (set_is_processing false (chat_area_add "assistant" response a)), w')
        ∧ stored_messages w' cid = Some (msgs ++ [new_message "assistant" response w])
        ∧ (∀ first, head (msgs ++ [new_message "assistant" response w]) = Some first →
             stored_title w' cid
             = Some (title_of (default "New Chat" (first !! "content"))))
        ∧ mem0_adds w'
          = match mem0 a, _pending_user_message a with
            | true, Some pm =>
                match mem0_add_raises (exchange_call a pm response) with
                | None => mem0_adds w ++ [exchange_call a pm response]
                | Some _ => mem0_adds w
                end
            | _, _ => mem0_adds w
            end.
Proof.
  intros Hactive Hf Hm. unfold _handle_response, mbind, M_bind.
  rewrite active_conversation_chat_area_add, Hactive.
  rewrite (add_message_stored cid "assistant" response w d msgs Hf Hm).
  set (am := new_message "assistant" response w).
  set (w1 := World _ _ _ _ _).
  destruct (msgs ++ [am]) as [| first rest] eqn:Hall; [by destruct msgs |].
  rewrite (update_title_in_turn (chat_area_add "assistant" response a) cid w1 _ first rest
             Hactive (lookup_insert_eq _ _ _) eq_refl).
  set (w2 := World _ _ _ _ _).
  assert (stored_messages w2 cid = Some (first :: rest)) as Hmsgs.
  { unfold stored_messages, w2. cbn [files]. by rewrite lookup_insert_eq. }
  assert (stored_title w2 cid
          = Some (title_of (default "New Chat" (first !! "content")))) as Htitle.
  { unfold stored_title, w2. cbn [files fields]. rewrite lookup_insert_eq. cbn [fields].
    rewrite lookup_insert_ne by done. by rewrite lookup_insert_eq. }
  cbn [mem0 _pending_user_message chat_area_add].
  destruct (mem0 a); [destruct (_pending_user_message a) as [pm |] |].
  - rewrite store_in_mem0_run. eexists. split; [reflexivity |].
    split; [exact Hmsgs |]. split; [by intros ? [= <-] | reflexivity].
  - eexists. split; [reflexivity |].
    split; [exact Hmsgs |]. split; [by intros ? [= <-] | reflexivity].
  - eexists. split; [reflexivity |].
    split; [exact Hmsgs |]. split; [by intros ? [= <-] | reflexivity].
Qed.

Lemma new_message_role role content w : new_message role content w !! "role" = Some role.
Proof. reflexivity. Qed.

Lemma new_message_content role content w :
  new_message role content w !! "content" = Some content.
Proof. reflexivity. Qed.

(** A whole turn in a stored conversation, step by step: what
    [_send_message] leaves on disk before the worker starts, and what is
    there once [_handle_response] and the Mem0 worker are done. *)
Lemma handle_turn_in_turn a message cid msgs w :
  turn_in a message cid msgs w →
  let p := turn_pending a message msgs w in
  let reply := fst (get_response a p) in
  let um := new_message "user" message w in
  ∃ a1 w1 a2 w2 am,
    _send_message a message w = (Ok (a1, Some p), w1)
    ∧ stored_messages w1 cid = Some (msgs ++ [um])
    ∧ handle_turn a message w = (Ok (a2, Some (get_response a p)), w2)
    ∧ stored_messages w2 cid = Some (msgs ++ [um; am])
    ∧ am !! "role" = Some "assistant" ∧ am !! "content" = Some reply
    ∧ (∀ first, head (msgs ++ [um]) = Some first →
         stored_title w2 cid = Some (title_of (default "New Chat" (first !! "content"))))
    ∧ mem0_adds w2
      = (if mem0 a then
           match mem0_add_raises (exchange_call a message reply) with
           | None => mem0_adds w ++ [exchange_call a message reply]
           | Some _ => mem0_adds w
           end
         else mem0_adds w).
Proof.
  intros Hturn p reply um.
  destruct (send_message_in_turn a message cid msgs w Hturn) as (d & Hf & Hm & Hsend).
  destruct Hturn as (_ & _ & _ & Hactive & _).
  set (a1 := set_pending_user_message message _) in Hsend.
  set (w1 := World _ _ _ _ _) in Hsend.
  assert (stored_messages w1 cid = Some (msgs ++ [um])) as Hstored1.
  { unfold stored_messages, w1. cbn [files]. by rewrite lookup_insert_eq. }
  destruct (handle_response_in_turn a1 reply cid (msgs ++ [um]) w1 _
              Hactive (lookup_insert_eq _ _ _) eq_refl)
    as (w2 & Hhandle & Hstored2 & Htitle & Hindex).
  exists a1, w1, (set_is_processing false (chat_area_add "assistant" reply a1)), w2,
    (new_message "assistant" reply w1).
  split; [exact Hsend |]. split; [exact Hstored1 |]. split.
  { unfold handle_turn, mbind, M_bind. rewrite Hsend.
    assert (∀ q, get_response a1 q = get_response a q) as Hsame by reflexivity.
    rewrite Hsame.
    change (Pending message (msgs ++ [new_message "user" message w])
              (found_memories a message (mem0_adds w))) with p.
    subst reply. destruct (get_response a p) as [response calls].
    cbn [fst] in *. by rewrite Hhandle. }
  split; [by rewrite Hstored2, <- app_assoc |].
  split; [apply new_message_role |]. split; [apply new_message_content |].
  split.
  { intros first Hfirst. apply Htitle. destruct msgs; exact Hfirst. }
  rewrite Hindex. change (mem0 a1) with (mem0 a).
  destruct (mem0 a); reflexivity.
Qed.

(** The guard on the store: with no memory service or no current
    conversation the turn still runs and replies, and writes no file. *)
Lemma turn_without_conversation a message w :
  is_processing a = false → Str.strip message ≠ "" → tutor_service a = true →
  active_conversation a = None →
  ∃ a' r w', handle_turn a message w = (Ok (a', Some r), w') ∧ files w' = files w.
Proof.
  intros Hproc Hmsg Htutor Hactive.
  unfold handle_turn, _send_message. rewrite Hproc, Htutor.
  rewrite bool_decide_eq_false_2 by done. cbn [orb negb].
  unfold mbind, M_bind.
  rewrite active_conversation_chat_area_add, active_conversation_set_is_processing, Hactive.
  unfold mret, M_ret. rewrite search_memories_run.
  destruct (get_response _ _) as [response calls].
  unfold _handle_response, mbind, M_bind, mret, M_ret.
  assert (∀ x, active_conversation (chat_area_add "assistant" response
                 (set_pending_user_message message x)) = active_conversation x)
    as -> by reflexivity.
  rewrite active_conversation_chat_area_add, active_conversation_set_is_processing, Hactive.
  cbn [mem0 _pending_user_message chat_area_add set_pending_user_message
       set_is_processing].
  destruct (mem0 a).
  - rewrite store_in_mem0_run. eexists _, _, _. split; reflexivity.
  - eexists _, _, _. split; reflexivity.
Qed.

(** C2.  In every turn that takes place in a current, stored conversation
    ([turn_in]) the user message is on disk when [_send_message] returns,
    before the worker that routes and executes is started; after the turn
    the conversation holds its earlier messages, then the user message, then
    the assistant reply, in this order. *)
Theorem user_message_persisted_before_reply a message cid msgs w :
  turn_in a message cid msgs w →
  ∃ a1 w1 p a2 w2 um am,
    _send_message a message w = (Ok (a1, Some p), w1)
    ∧ stored_messages w1 cid = Some (msgs ++ [um])
    ∧ um !! "role" = Some "user" ∧ um !! "content" = Some message
    ∧ handle_turn a message w = (Ok (a2, Some (get_response a1 p)), w2)
    ∧ stored_messages w2 cid = Some (msgs ++ [um; am])
    ∧ am !! "role" = Some "assistant"
    ∧ am !! "content" = Some (fst (get_response a1 p)).
Proof.
  intros Hturn.
  destruct (handle_turn_in_turn a message cid msgs w Hturn)
    as (a1 & w1 & a2 & w2 & am & Hsend & Hs1 & Hrun & Hs2 & Hrole & Hcontent & _).
  exists a1, w1, (turn_pending a message msgs w), a2, w2,
    (new_message "user" message w), am.
  assert (get_response a1 (turn_pending a message msgs w)
          = get_response a (turn_pending a message msgs w)) as ->.
  { destruct (send_message_in_turn a message cid msgs w Hturn) as (d & _ & _ & Hsend').
    rewrite Hsend in Hsend'. by injection Hsend' as -> _. }
  by repeat split.
Qed.

(** ** Execution failures *)

(** What the worker answers when the model it calls raises: the apology of
    the tool around [str(e)], with the one call that was made. *)
Lemma get_response_translation_raises a p r text target e :
  _route_message (p_message p) = Ok r → tool r = "translate" →
  py_get (args r) "text" (p_message p) = Ok text →
  py_get (args r) "target_language"
    (default "Spanish" (default ∅ (user_profile a) !! "target_language")) = Ok target →
  translation_llm (translate_prompt target text) = Raise e →
  get_response a p
  = (translation_apology e, [InvokeTranslation (translate_prompt target text) (Raise e)]).
Proof.
  intros Hroute Htool Htext Htarget Hllm.
  unfold get_response, chat_with_tutor. rewrite Hroute.
  unfold _execute_and_respond. rewrite decide_True by done.
  rewrite Htext. cbn [mbind result_bind]. rewrite Htarget. cbn [mbind result_bind].
  by rewrite Hllm.
Qed.

Lemma get_response_reasoning_raises a p r task e :
  _route_message (p_message p) = Ok r → tool r ≠ "translate" →
  build_task (tool r) (args r) (p_message p)
    (default "Spanish" (default ∅ (user_profile a) !! "target_language"))
    (p_history p) = Ok task →
  reasoning_llm
    (system_prompt (default "Student" (default ∅ (user_profile a) !! "user_name"))
       (default "Spanish" (default ∅ (user_profile a) !! "target_language"))
       (p_memories p)) task = Raise e →
  get_response a p
  = (error_apology (exn_str e),
     [InvokeReasoning
        (system_prompt (default "Student" (default ∅ (user_profile a) !! "user_name"))
           (default "Spanish" (default ∅ (user_profile a) !! "target_language"))
           (p_memories p)) task (Raise e)]).
Proof.
  intros Hroute Htool Htask Hllm.
  unfold get_response, chat_with_tutor. rewrite Hroute.
  unfold _execute_and_respond. rewrite decide_False by done.
  rewrite Htask. by rewrite Hllm.
Qed.

Lemma error_apology_nonempty detail : error_apology detail ≠ "".
Proof. done. Qed.

Lemma translation_apology_nonempty e : translation_apology e ≠ "".
Proof. done. Qed.

(** A turn that returns normally with [reply] after the model calls
    [calls], and leaves the conversation ending with the user message
    followed by [reply] as the assistant message. *)
Definition turn_replies (a : app) (message cid : string) (msgs : list stored_message)
    (w : world) (reply : string) (calls : list invocation) : Prop :=
  ∃ a2 w2 um am,
    handle_turn a message w = (Ok (a2, Some (reply, calls)), w2)
    ∧ stored_messages w2 cid = Some (msgs ++ [um; am])
    ∧ um !! "role" = Some "user" ∧ um !! "content" = Some message
    ∧ am !! "role" = Some "assistant" ∧ am !! "content" = Some reply.

(** C3.  In a turn, in a current and stored conversation, routed to the
    decision [r]: when the execution model raises [e] on the prompt the
    executor builds for [r] (the translation model on
    [Translate to {target}: {text}] for the tool [translate], the reasoning
    model on the system prompt and the task of the tool otherwise), the
    turn still returns normally; its reply is the apology template of the
    tool followed by [str(e)], hence not empty and containing the error
    text; the one model call made is that raising call; and the
    conversation ends with the user message followed by that apology as the
    assistant message. *)
Theorem execution_failure_apology a message cid msgs w r e :
  turn_in a message cid msgs w →
  _route_message message = Ok r →
  let profile := default ∅ (user_profile a) in
  let user_name := default "Student" (profile !! "user_name") in
  let target_lang := default "Spanish" (profile !! "target_language") in
  let history := msgs ++ [new_message "user" message w] in
  let memories := found_memories a message (mem0_adds w) in
  (∀ text target,
     tool r = "translate" →
     py_get (args r) "text" message = Ok text →
     py_get (args r) "target_language" target_lang = Ok target →
     translation_llm (translate_prompt target text) = Raise e →
     turn_replies a message cid msgs w (translation_apology e)
       [InvokeTranslation (translate_prompt target text) (Raise e)]
     ∧ translation_apology e ≠ ""
     ∧ Str.contains (exn_str e) (translation_apology e))
  ∧ (∀ task,
       tool r ≠ "translate" →
       build_task (tool r) (args r) message target_lang history = Ok task →
       reasoning_llm (system_prompt user_name target_lang memories) task = Raise e →
       turn_replies a message cid msgs w (error_apology (exn_str e))
         [InvokeReasoning (system_prompt user_name target_lang memories) task (Raise e)]
       ∧ error_apology (exn_str e) ≠ ""
       ∧ Str.contains (exn_str e) (error_apology (exn_str e))).
Proof.
  intros Hturn Hroute profile user_name target_lang history memories.
  destruct (handle_turn_in_turn a message cid msgs w Hturn)
    as (a1 & w1 & a2 & w2 & am & _ & _ & Hrun & Hs2 & Hrole & Hcontent & _).
  set (p := turn_pending a message msgs w) in *.
  split.
  - intros text target Htool Htext Htarget Hllm.
    rewrite (get_response_translation_raises a p r text target e
               Hroute Htool Htext Htarget Hllm) in Hrun, Hcontent.
    split; [| split; [apply translation_apology_nonempty
                     | apply contains_app_r, contains_refl]].
    exists a2, w2, (new_message "user" message w), am. by repeat split.
  - intros task Htool Htask Hllm.
    rewrite (get_response_reasoning_raises a p r task e Hroute Htool Htask Hllm)
      in Hrun, Hcontent.
    split; [| split; [apply error_apology_nonempty
                     | apply contains_app_r, contains_refl]].
    exists a2, w2, (new_message "user" message w), am. by repeat split.
Qed.

(** ** Conversation title *)

Lemma title_of_short (first_msg : string) :
  String.length first_msg ≤ 50 → title_of first_msg = first_msg.
Proof.
  intros H. unfold title_of. rewrite decide_False by lia.
  by rewrite take_all, str_app_nil_r.
Qed.

Lemma title_of_long (first_msg : string) :
  50 < String.length first_msg →
  title_of first_msg = Str.take 50 first_msg +:+ "..."
  ∧ String.length (Str.take 50 first_msg) = 50.
Proof.
  intros H. unfold title_of. rewrite decide_True by lia.
  split; [done | apply take_length; lia].
Qed.

(** C4, as the code has it.  When the conversation holds exactly one
    message after the user message of the turn is appended, the title
    stored at the end of the turn is derived from that message: the whole
    message when it has at most 50 characters, its first 50 characters
    followed by [...] when it has more. *)
Theorem first_message_sets_title a message cid w :
  turn_in a message cid [] w →
  ∃ a1 w1 p um a2 w2 r,
    _send_message a message w = (Ok (a1, Some p), w1)
    ∧ stored_messages w1 cid = Some [um] ∧ um !! "content" = Some message
    ∧ handle_turn a message w = (Ok (a2, Some r), w2)
    ∧ stored_title w2 cid = Some (title_of message)
    ∧ (String.length message ≤ 50 → title_of message = message)
    ∧ (50 < String.length message →
       title_of message = Str.take 50 message +:+ "..."
       ∧ String.length (Str.take 50 message) = 50).
Proof.
  intros Hturn.
  destruct (handle_turn_in_turn a message cid [] w Hturn)
    as (a1 & w1 & a2 & w2 & am & Hsend & Hs1 & Hrun & _ & _ & _ & Htitle & _).
  exists a1, w1, (turn_pending a message [] w), (new_message "user" message w), a2, w2,
    (get_response a (turn_pending a message [] w)).
  split; [exact Hsend |]. split; [exact Hs1 |]. split; [apply new_message_content |].
  split; [exact Hrun |].
  split; [exact (Htitle _ eq_refl) |].
  split; [apply title_of_short | apply title_of_long].
Qed.

(** ** Context assembly *)

(** C7.  In a turn in a current and stored conversation, when Mem0 is not
    available, or its search raises, the context [_send_message] assembles
    has no memory, nothing is raised, and the
    history is the stored conversation read back: the earlier messages and
    the user message of the turn. *)
Theorem memory_failure_keeps_history a message cid msgs w :
  turn_in a message cid msgs w →
  (mem0 a = false
   ∨ ∃ e, mem0_search (mem0_adds w) message (user_id a) 5 = Raise e) →
  ∃ a1 w1 p um,
    _send_message a message w = (Ok (a1, Some p), w1)
    ∧ p_memories p = []
    ∧ p_history p = msgs ++ [um]
    ∧ um !! "role" = Some "user" ∧ um !! "content" = Some message
    ∧ stored_messages w1 cid = Some (p_history p).
Proof.
  intros Hturn Hmem.
  destruct (handle_turn_in_turn a message cid msgs w Hturn)
    as (a1 & w1 & _ & _ & _ & Hsend & Hs1 & _).
  exists a1, w1, (turn_pending a message msgs w), (new_message "user" message w).
  split; [exact Hsend |]. split.
  { cbn [turn_pending p_memories]. unfold found_memories.
    destruct Hmem as [-> | [e ->]]; [done | by destruct (mem0 a)]. }
  by repeat split.
Qed.

(** ** Translation turns *)

Lemma get_response_translate a p d text target content :
  _route_message (p_message p) = Ok (Route "translate" (VDict d)) →
  d !! "text" = Some text → d !! "target_language" = Some target →
  translation_llm (translate_prompt target text) = Ok content →
  get_response a p =
  (translation_reply target (Str.strip content),
   [InvokeTranslation (translate_prompt target text) (Ok content)]).
Proof.
  intros Hroute Htext Htarget Hllm.
  unfold get_response, chat_with_tutor. rewrite Hroute. cbn [tool args].
  unfold _execute_and_respond. rewrite decide_True by done.
  unfold py_get. cbn [mbind result_bind]. rewrite Htext, Htarget. cbn [from_option id].
  by rewrite Hllm.
Qed.

(** C8, as the code has it.  In a turn, in a current and stored
    conversation, routed to [translate] with the arguments [text] and
    [target_language], the translation model is the one
    model called, with the prompt built from the two arguments; when it
    answers, the reply is the translation template around the stripped
    answer; and when Mem0 is available and accepts the payload, the index
    gains one record: the exchange, under the user's identifier, with no
    metadata and so no category. *)
Theorem translate_turn_reply_and_record a message cid msgs w d text target content :
  turn_in a message cid msgs w →
  _route_message message = Ok (Route "translate" (VDict d)) →
  d !! "text" = Some text → d !! "target_language" = Some target →
  translation_llm (translate_prompt target text) = Ok content →
  let reply := translation_reply target (Str.strip content) in
  ∃ a2 w2,
    handle_turn a message w
    = (Ok (a2, Some (reply, [InvokeTranslation (translate_prompt target text) (Ok content)])),
       w2)
    ∧ Str.contains (Str.strip content) reply
    ∧ (mem0 a = true → mem0_add_raises (exchange_call a message reply) = None →
       mem0_adds w2 = mem0_adds w ++ [exchange_call a message reply]
       ∧ add_user_id (exchange_call a message reply) = user_id a
       ∧ add_metadata (exchange_call a message reply) = ∅)
    ∧ (mem0 a = false → mem0_adds w2 = mem0_adds w).
Proof.
  intros Hturn Hroute Htext Htarget Hllm reply.
  destruct (handle_turn_in_turn a message cid msgs w Hturn)
    as (a1 & w1 & a2 & w2 & am & _ & _ & Hrun & _ & _ & _ & _ & Hindex).
  rewrite (get_response_translate a (turn_pending a message msgs w) d text target content
             Hroute Htext Htarget Hllm) in Hrun, Hindex.
  cbn [fst] in Hindex. fold reply in Hrun, Hindex.
  exists a2, w2. split; [exact Hrun |]. split.
  { unfold reply, translation_reply. do 6 apply contains_app_r. apply contains_prefix. }
  split.
  - intros Hmem0 Hadd. rewrite Hindex, Hmem0, Hadd. done.
  - intros Hmem0. by rewrite Hindex, Hmem0.
Qed.

(** ** Recent history *)

Lemma startswith_app (needle post : string) :
  Str.startswith needle (needle +:+ post) = true.
Proof.
  induction needle as [| c n IH]; [done |].
  rewrite str_app_cons. cbn [Str.startswith].
  by rewrite bool_decide_eq_true_2, IH.
Qed.

Lemma containsb_complete (needle hay : string) :
  Str.contains needle hay → Str.containsb needle hay = true.
Proof.
  intros (pre & post & ->).
  induction pre as [| c pre IH].
  - rewrite str_app_nil_l.
    destruct (needle +:+ post) eqn:E; cbn [Str.containsb];
      by rewrite <- E, startswith_app.
  - rewrite str_app_cons. cbn [Str.containsb]. rewrite IH. apply orb_true_r.
Qed.

(** The transcript has one line for each of the last six messages, in the
    order of the history. *)
Lemma conv_lines_last_six (history : list stored_message) :
  6 ≤ length history →
  length (conv_lines history) = 6
  ∧ conv_lines history = history_line <$> drop (length history - 6) history
  ∧ ∀ i, i < 6 →
      conv_lines history !! i = history_line <$> history !! (length history - 6 + i).
Proof.
  intros Hlen. unfold conv_lines, lastn.
  split; [rewrite length_fmap, length_drop; lia |]. split; [done |].
  intros i Hi. by rewrite list_lookup_fmap, lookup_drop.
Qed.

(** C5, at a history of seven messages whose last content has 201
    characters.  The transcript has the six most recent messages, in order;
    the line of the last one carries the first 200 characters of its content
    followed by [...], and the stored content occurs neither in the
    transcript nor in the chat prompt built from it. *)
Theorem transcript_truncates_long_content :
  length long_history = 7
  ∧ conv_lines long_history = history_line <$> drop 1 long_history
  ∧ (long_history !! 6) ≫= (λ msg : stored_message, msg !! "content") = Some long_content
  ∧ String.length long_content = 201
  ∧ conv_lines long_history !! 5
    = Some ("user: " +:+ Str.replicate 200 "x"%char +:+ "...")
  ∧ ¬ Str.contains long_content (conv_str long_history)
  ∧ ¬ Str.contains long_content (chat_task "and this one?" long_history).
Proof.
  split; [reflexivity |]. split; [reflexivity |]. split; [reflexivity |].
  split; [reflexivity |]. split; [vm_compute; reflexivity |].
  split; intros H%containsb_complete; vm_compute in H; discriminate H.
Qed.

(** * Further properties of the store *)

Ltac by_file_content cid w :=
  let Hf := fresh "Hf" in
  let Hm := fresh "Hm" in
  destruct (files w !! conv_path cid) as [[| ? | ?] |] eqn:Hf;
  [ | match goal with d : conv_data |- _ => destruct (messages d) eqn:Hm end | | ];
  try run_with Hf Hm; try run_with Hf Hf.

(** X1.  Clearing a stored conversation answers [True] and empties its
    message list: loading it afterwards gives the empty list, the
    conversation is still on disk with its title, and no other file is
    touched. *)
Theorem clear_conversation_empties cid w d :
  files w !! conv_path cid = Some (JObject d) →
  ∃ w', clear_conversation cid w = (Ok true, w')
        ∧ load_conversation cid w' = (Ok [], w')
        ∧ stored_messages w' cid = Some []
        ∧ stored_title w' cid = fields d !! "title"
        ∧ ∀ p, p ≠ conv_path cid → files w' !! p = files w !! p.
Proof.
  intros Hf. eexists. split.
  { unfold clear_conversation. run_with Hf Hf. reflexivity. }
  set (w' := World _ _ _ _ _).
  assert (files w' !! conv_path cid
          = Some (JObject (ConvData (<["updated_at" := isoformat (clock w)]> (fields d))
                                    (Some [])))) as Hf'.
  { unfold w'. cbn [files]. by rewrite lookup_insert_eq. }
  split; [by rewrite (load_conversation_stored cid w' _ Hf') |].
  split; [unfold stored_messages; by rewrite Hf' |].
  split; [unfold stored_title; rewrite Hf'; cbn [fields]; by rewrite lookup_insert_ne |].
  intros p Hp. unfold w'. cbn [files]. by rewrite lookup_insert_ne.
Qed.

Lemma delete_message_stored cid message_id w d msgs :
  files w !! conv_path cid = Some (JObject d) → messages d = Some msgs →
  length (filter (λ msg : stored_message, msg !! "id" ≠ Some message_id) msgs)
  ≠ length msgs →
  delete_message_from_conversation cid message_id w =
  (Ok true,
   World (<[conv_path cid :=
              JObject (ConvData
                         (<["updated_at" := isoformat (clock w)]> (fields d))
                         (Some (filter (λ msg : stored_message,
                                          msg !! "id" ≠ Some message_id) msgs)))]>
            (files w))
         (S (clock w)) (rng w) (mem0_adds w) (chat_memory w)).
Proof.
  intros Hf Hm Hlen. unfold delete_message_from_conversation. run_with Hf Hm.
  rewrite decide_False by done. run. reflexivity.
Qed.

(** X2.  Deleting the identifier of a stored message answers [True] and
    removes that message: when one message carries the identifier, the
    others stay, in their order, and title and other files are untouched. *)
Theorem delete_present_message cid message_id w d before msg after :
  files w !! conv_path cid = Some (JObject d) →
  messages d = Some (before ++ msg :: after) →
  msg !! "id" = Some message_id →
  (∀ other : stored_message, other ∈ before ++ after →
                             other !! "id" ≠ Some message_id) →
  ∃ w', delete_message_from_conversation cid message_id w = (Ok true, w')
        ∧ stored_messages w' cid = Some (before ++ after)
        ∧ load_conversation cid w' = (Ok (before ++ after), w')
        ∧ stored_title w' cid = fields d !! "title"
        ∧ ∀ p, p ≠ conv_path cid → files w' !! p = files w !! p.
Proof.
  intros Hf Hm Hid Hothers.
  assert (filter (λ m : stored_message, m !! "id" ≠ Some message_id)
            (before ++ msg :: after) = before ++ after) as Hfilter.
  { rewrite filter_app, filter_cons_False by (by intros ?).
    rewrite !filter_keeps_all; [done | |]; intros x Hx; apply Hothers;
      apply elem_of_app; auto. }
  eexists. split.
  { apply (delete_message_stored cid message_id w d _ Hf Hm).
    rewrite Hfilter, !length_app. cbn [length]. lia. }
  rewrite Hfilter. set (w' := World _ _ _ _ _).
  assert (files w' !! conv_path cid
          = Some (JObject (ConvData (<["updated_at" := isoformat (clock w)]> (fields d))
                                    (Some (before ++ after))))) as Hf'.
  { unfold w'. cbn [files]. by rewrite lookup_insert_eq. }
  split; [unfold stored_messages; by rewrite Hf' |].
  split; [by rewrite (load_conversation_stored cid w' _ Hf') |].
  split; [unfold stored_title; rewrite Hf'; cbn [fields]; by rewrite lookup_insert_ne |].
  intros p Hp. unfold w'. cbn [files]. by rewrite lookup_insert_ne.
Qed.

(** X3.  Appending to a stored conversation and loading it back gives the
    earlier messages followed by the new one, which carries the role and
    the content given, the identifier just drawn and the time just read;
    the title is untouched. *)
Theorem append_then_load cid role content w msgs :
  stored_messages w cid = Some msgs →
  ∃ w' m, add_message_to_conversation cid role content w = (Ok true, w')
          ∧ load_conversation cid w' = (Ok (msgs ++ [m]), w')
          ∧ m !! "role" = Some role ∧ m !! "content" = Some content
          ∧ m !! "id" = Some (uuid4 (rng w))
          ∧ m !! "timestamp" = Some (isoformat (clock w))
          ∧ stored_title w' cid = stored_title w cid.
Proof.
  intros Hstored.
  destruct (stored_messages_inv _ _ _ Hstored) as (d & Hf & Hm).
  eexists _, (new_message role content w). split.
  { apply (add_message_stored cid role content w d msgs Hf Hm). }
  set (w' := World _ _ _ _ _).
  assert (files w' !! conv_path cid
          = Some (JObject (ConvData (<["updated_at" := isoformat (S (clock w))]> (fields d))
                                    (Some (msgs ++ [new_message role content w])))))
    as Hf'.
  { unfold w'. cbn [files]. by rewrite lookup_insert_eq. }
  split; [by rewrite (load_conversation_stored cid w' _ Hf') |].
  repeat (split; [reflexivity |]).
  unfold stored_title. rewrite Hf', Hf. cbn [fields]. by rewrite lookup_insert_ne.
Qed.

(** X4.  [create_new_conversation] never raises here and answers the first
    eight characters of the identifier drawn; the new conversation is on
    disk with the title given and no message, loads as the empty list and
    accepts a message at once.  It does not look at what was stored under
    the identifier before. *)
Theorem create_then_use title role content w :
  let cid := Str.take 8 (uuid4 (rng w)) in
  ∃ w', create_new_conversation title w = (Ok cid, w')
        ∧ stored_messages w' cid = Some []
        ∧ stored_title w' cid = Some title
        ∧ load_conversation cid w' = (Ok [], w')
        ∧ fst (add_message_to_conversation cid role content w') = Ok true
        ∧ ∀ p, p ≠ conv_path cid → files w' !! p = files w !! p.
Proof.
  intros cid. eexists. split.
  { unfold create_new_conversation. run. reflexivity. }
  set (w' := World _ _ _ _ _).
  set (d := ConvData {[ "id" := cid; "title" := title;
                        "created_at" := isoformat (clock w);
                        "updated_at" := isoformat (S (clock w)) ]} (Some [])).
  assert (files w' !! conv_path cid = Some (JObject d)) as Hf'.
  { unfold w'. cbn [files]. by rewrite lookup_insert_eq. }
  split; [unfold stored_messages; by rewrite Hf' |].
  split; [unfold stored_title; by rewrite Hf' |].
  split; [by rewrite (load_conversation_stored cid w' _ Hf') |].
  split; [by rewrite (add_message_stored cid role content w' d [] Hf' eq_refl) |].
  intros p Hp. unfold w'. cbn [files]. by rewrite lookup_insert_ne.
Qed.

(** X5.  Deleting a conversation that is on disk answers [True] and removes
    its file, whatever the file holds: afterwards it loads as the empty
    list and refuses messages.  Deleting one that is not on disk answers
    [False] and changes nothing. *)
Theorem delete_conversation_removes cid role content w :
  (is_Some (files w !! conv_path cid) →
   ∃ w', delete_conversation cid w = (Ok true, w')
         ∧ files w' !! conv_path cid = None
         ∧ load_conversation cid w' = (Ok [], w')
         ∧ add_message_to_conversation cid role content w' = (Ok false, w')
         ∧ ∀ p, p ≠ conv_path cid → files w' !! p = files w !! p)
  ∧ (files w !! conv_path cid = None → delete_conversation cid w = (Ok false, w)).
Proof.
  split.
  - intros Hsome. eexists. split.
    { unfold delete_conversation. run.
      rewrite bool_decide_eq_true_2 by done. reflexivity. }
    set (w' := World _ _ _ _ _).
    assert (files w' !! conv_path cid = None) as Hf'.
    { unfold w'. cbn [files]. by rewrite lookup_delete_eq. }
    split; [exact Hf' |].
    split; [by apply load_conversation_missing |].
    split; [by apply add_message_missing |].
    intros p Hp. unfold w'. cbn [files]. by rewrite lookup_delete_ne.
  - intros Hf. unfold delete_conversation. run_with Hf Hf. reflexivity.
Qed.

(** X6.  Renaming a stored conversation answers [True], stores the title
    given and leaves the message list and every other file as they were. *)
Theorem rename_keeps_messages cid title w d :
  files w !! conv_path cid = Some (JObject d) →
  ∃ w', update_conversation_title cid title w = (Ok true, w')
        ∧ stored_title w' cid = Some title
        ∧ stored_messages w' cid = messages d
        ∧ load_conversation cid w' = (Ok (default [] (messages d)), w')
        ∧ ∀ p, p ≠ conv_path cid → files w' !! p = files w !! p.
Proof.
  intros Hf. eexists. split; [apply (update_title_stored cid title w d Hf) |].
  set (w' := World _ _ _ _ _).
  assert (files w' !! conv_path cid
          = Some (JObject (ConvData (<["updated_at" := isoformat (clock w)]>
                                       (<["title" := title]> (fields d)))
                                    (messages d)))) as Hf'.
  { unfold w'. cbn [files]. by rewrite lookup_insert_eq. }
  split.
  { unfold stored_title. rewrite Hf'. cbn [fields].
    rewrite lookup_insert_ne by done. by rewrite lookup_insert_eq. }
  split; [unfold stored_messages; by rewrite Hf' |].
  split; [by rewrite (load_conversation_stored cid w' _ Hf') |].
  intros p Hp. unfold w'. cbn [files]. by rewrite lookup_insert_ne.
Qed.

(** X7.  A conversation file that does not hold JSON, or holds an array, is
    never repaired nor overwritten: appending, deleting a message, renaming
    and clearing all answer [False], loading answers the empty list, nothing
    is raised and every file stays as it was. *)
Theorem unusable_file_is_left_alone cid role content message_id title w :
  (files w !! conv_path cid = Some NotJson
   ∨ ∃ l, files w !! conv_path cid = Some (JArray l)) →
  (fst (add_message_to_conversation cid role content w) = Ok false
   ∧ files (snd (add_message_to_conversation cid role content w)) = files w)
  ∧ (fst (delete_message_from_conversation cid message_id w) = Ok false
     ∧ files (snd (delete_message_from_conversation cid message_id w)) = files w)
  ∧ (fst (update_conversation_title cid title w) = Ok false
     ∧ files (snd (update_conversation_title cid title w)) = files w)
  ∧ (fst (clear_conversation cid w) = Ok false
     ∧ files (snd (clear_conversation cid w)) = files w)
  ∧ load_conversation cid w = (Ok [], w).
Proof.
  intros [Hf | [l Hf]];
    unfold add_message_to_conversation, delete_message_from_conversation,
      update_conversation_title, clear_conversation, load_conversation;
    run_with Hf Hf; done.
Qed.

(** X8.  The operations on a conversation never raise and never touch a
    file other than the one of the conversation, whatever the store holds. *)
Theorem store_operations_touch_one_file cid role content message_id title p w :
  p ≠ conv_path cid →
  (∃ b, fst (add_message_to_conversation cid role content w) = Ok b)
  ∧ files (snd (add_message_to_conversation cid role content w)) !! p = files w !! p
  ∧ (∃ b, fst (delete_message_from_conversation cid message_id w) = Ok b)
  ∧ files (snd (delete_message_from_conversation cid message_id w)) !! p = files w !! p
  ∧ (∃ b, fst (update_conversation_title cid title w) = Ok b)
  ∧ files (snd (update_conversation_title cid title w)) !! p = files w !! p
  ∧ (∃ b, fst (clear_conversation cid w) = Ok b)
  ∧ files (snd (clear_conversation cid w)) !! p = files w !! p
  ∧ (∃ b, fst (delete_conversation cid w) = Ok b)
  ∧ files (snd (delete_conversation cid w)) !! p = files w !! p
  ∧ (∃ l, load_conversation cid w = (Ok l, w)).
Proof.
  intros Hp.
  unfold add_message_to_conversation, delete_message_from_conversation,
    update_conversation_title, clear_conversation, delete_conversation,
    load_conversation.
  by_file_content cid w; repeat case_decide;
    cbn [fst snd files]; rewrite ?lookup_insert_ne, ?lookup_delete_ne by done;
    repeat split; eauto.
Qed.

(** * Further properties of the translation log and the buffer *)

(** The entries of a log that pass the filters in use. *)
Definition matching_entries (source target : option string)
    (l : list translation_entry) : list translation_entry :=
  let by_source :=
    if filter_active source then filter (λ t, Some (entry_source t) = source) l
    else l in
  if filter_active target then filter (λ t, Some (entry_target t) = target) by_source
  else by_source.

Lemma get_translation_history_readable user source target limit w l :
  translation_log w user = Some l →
  get_translation_history user source target limit w
  = (Ok (Some (slice_last limit (matching_entries source target l))), w).
Proof.
  unfold translation_log, get_translation_history, matching_entries, filter_language,
    slice_entries.
  intros Hl.
  destruct (files w !! translations_path user) as [[| d | l'] |] eqn:Hf; simplify_eq;
    run_with Hf Hf;
    destruct (filter_active source), (filter_active target); run; reflexivity.
Qed.

Lemma lastn_suffix {A} (n : nat) (l : list A) : ∃ earlier, l = earlier ++ lastn n l.
Proof. exists (take (length l - n) l). unfold lastn. by rewrite take_drop. Qed.

Lemma matching_entries_spec source target l t :
  t ∈ matching_entries source target l →
  t ∈ l
  ∧ (filter_active source = true → Some (source_language t) = source)
  ∧ (filter_active target = true → Some (target_language t) = target).
Proof.
  unfold matching_entries.
  destruct (filter_active source), (filter_active target); intros Ht;
    repeat (apply list_elem_of_filter in Ht as [? Ht]); by repeat split.
Qed.

(** X9.  [get_translation_history] on a readable log changes nothing and
    answers entries of the log that pass the filters given (a filter that
    is [None] or empty is not applied), in the order of the log: the last
    [limit] of them when [limit] is positive, and all of them when [limit]
    is 0. *)
Theorem translation_history_window user source target limit w l :
  translation_log w user = Some l →
  ∃ shown earlier,
    get_translation_history user source target limit w = (Ok (Some shown), w)
    ∧ matching_entries source target l = earlier ++ shown
    ∧ (0 < limit → length shown ≤ limit)
    ∧ (limit = 0 → shown = matching_entries source target l)
    ∧ ∀ t, t ∈ shown →
           t ∈ l
           ∧ (filter_active source = true → Some (source_language t) = source)
           ∧ (filter_active target = true → Some (target_language t) = target).
Proof.
  intros Hl. set (m := matching_entries source target l).
  assert (∃ earlier, m = earlier ++ slice_last limit m) as [earlier Hsplit].
  { destruct limit; [by exists [] | apply lastn_suffix]. }
  exists (slice_last limit m), earlier.
  split; [by apply get_translation_history_readable |].
  split; [exact Hsplit |].
  split; [intros Hpos; destruct limit; [lia |]; cbn [slice_last];
          rewrite lastn_length; lia |].
  split; [by intros -> |].
  intros t Ht. apply (matching_entries_spec source target l).
  fold m. rewrite Hsplit. apply elem_of_app. by right.
Qed.

(** X10.  After [add_translation_memory] on a readable log, the history
    asked for without filters and with limit 1 is the entry just added; and
    with a limit of 100 or more it is the whole log, at most 100 entries. *)
Theorem added_translation_is_latest user original translated source target meta w l limit :
  translation_log w user = Some l →
  let w' := snd (add_translation_memory user original translated source target meta w) in
  let entry := TranslationEntry original translated source target
                 (isoformat (clock w)) (default ∅ meta) in
  get_translation_history user None None 1 w' = (Ok (Some [entry]), w')
  ∧ (100 ≤ limit →
     get_translation_history user None None limit w'
     = (Ok (Some (lastn 99 l ++ [entry])), w')).
Proof.
  intros Hl w' entry. subst w'.
  rewrite (add_translation_memory_readable _ _ _ _ _ _ _ l Hl). cbn [snd].
  set (w' := World _ _ _ _ _).
  assert (translation_log w' user = Some (lastn 99 l ++ [entry])) as Hl'.
  { unfold translation_log, w'. cbn [files]. rewrite lookup_insert_eq.
    by rewrite lastn_snoc. }
  rewrite !(get_translation_history_readable _ _ _ _ _ _ Hl').
  unfold matching_entries. cbn [filter_active].
  split.
  - cbn [slice_last]. rewrite (lastn_snoc 0).
    unfold lastn at 1. by rewrite Nat.sub_0_r, drop_all.
  - intros Hlimit. destruct limit; [lia |]. cbn [slice_last].
    rewrite lastn_all; [done |].
    rewrite length_app, lastn_length. cbn [length]. lia.
Qed.

Lemma memory_path_not_translations_path user :
  memory_path user ≠ translations_path user.
Proof. unfold memory_path, translations_path. rewrite !str_app_cons. by intros [=]. Qed.

Lemma save_translation_to_log_frame user original translated source target meta w :
  ∃ w', _save_translation_to_log user original translated source target meta w
        = (Ok (), w')
        ∧ chat_memory w' = chat_memory w
        ∧ ∀ p, p ≠ translations_path user → files w' !! p = files w !! p.
Proof.
  unfold _save_translation_to_log.
  destruct (files w !! translations_path user) as [[| d | l] |] eqn:Hf;
    run_with Hf Hf; eexists; (split; [reflexivity |]); split; try done;
    intros p Hp; cbn [files]; by rewrite ?lookup_insert_ne.
Qed.

(** X11.  [add_translation_memory] always succeeds and puts two messages at
    the end of the buffer, the request and the translation; since the buffer
    is then not empty, [_save_memory] fails inside and the memory file of
    the user stays as it was: the two messages are not persisted. *)
Theorem translation_memory_is_buffered_not_persisted
    user original translated source target meta w :
  let r := add_translation_memory user original translated source target meta w in
  fst r = Ok true
  ∧ chat_memory (snd r)
    = chat_memory w ++ [Human ("I want to translate: " +:+ original);
                        AI ("Translation: " +:+ translated)]
  ∧ files (snd r) !! memory_path user = files w !! memory_path user.
Proof.
  cbv zeta. unfold add_translation_memory.
  set (w2 := World (files w) (clock w) (rng w) (mem0_adds w)
               ((chat_memory w ++ [Human ("I want to translate: " +:+ original)])
                ++ [AI ("Translation: " +:+ translated)])).
  assert (_save_memory user w2 = (Ok (), w2)) as Hsave.
  { apply save_memory_nonempty. subst w2. cbn [chat_memory].
    by destruct (chat_memory w ++ _). }
  destruct (save_translation_to_log_frame user original translated source target meta w2)
    as (w3 & Hrun & Hcm & Hframe).
  unfold try_catch, mbind, M_bind, chat_memory_add.
  cbn [files clock rng mem0_adds chat_memory].
  fold w2. rewrite Hsave, Hrun. run.
  split; [done |]. split.
  - rewrite Hcm. unfold w2. cbn [chat_memory]. by rewrite <- app_assoc.
  - rewrite Hframe by apply memory_path_not_translations_path. done.
Qed.

(** The buffer entry [add_conversation] makes of a message. *)
Definition to_chat_msg (msg : stored_message) : option chat_msg :=
  match msg !! "role", msg !! "content" with
  | Some role, Some content =>
      if bool_decide (role = "user") then Some (Human content)
      else if bool_decide (role = "assistant") then Some (AI content)
      else None
  | _, _ => None
  end.

Definition set_chat_memory (buffer : list chat_msg) (w : world) : world :=
  World (files w) (clock w) (rng w) (mem0_adds w) buffer.

Lemma omap_to_chat_msg_cons msg rest :
  omap to_chat_msg (msg :: rest)
  = match to_chat_msg msg with
    | Some c => c :: omap to_chat_msg rest
    | None => omap to_chat_msg rest
    end.
Proof. reflexivity. Qed.

Lemma buffer_messages_complete msgs w :
  (∀ msg : stored_message, msg ∈ msgs →
     is_Some (msg !! "role") ∧ is_Some (msg !! "content")) →
  buffer_messages msgs w
  = (Ok (), set_chat_memory (chat_memory w ++ omap to_chat_msg msgs) w).
Proof.
  revert w. induction msgs as [| msg rest IH]; intros w Hwf.
  - cbn. unfold set_chat_memory. rewrite app_nil_r. by destruct w.
  - destruct (Hwf msg) as [[role Hrole] [content Hcontent]]; [by left |].
    assert (∀ w', buffer_messages rest w'
                  = (Ok (), set_chat_memory (chat_memory w' ++ omap to_chat_msg rest) w'))
      as IH' by (intros w'; apply IH; intros ? ?; apply Hwf; by right).
    cbn [buffer_messages]. rewrite omap_to_chat_msg_cons.
    unfold to_chat_msg, msg_getitem. rewrite Hrole, Hcontent. run.
    destruct (bool_decide (role = "user")); run;
      [| destruct (bool_decide (role = "assistant")); run];
      rewrite IH'; unfold set_chat_memory;
      cbn [files clock rng mem0_adds chat_memory];
      rewrite <- ?app_assoc; by destruct w.
Qed.

Lemma buffer_messages_stops good bad rest w :
  (∀ msg : stored_message, msg ∈ good →
     is_Some (msg !! "role") ∧ is_Some (msg !! "content")) →
  bad !! "role" = None →
  buffer_messages (good ++ bad :: rest) w
  = (Raise (Exn "KeyError" "role"),
     set_chat_memory (chat_memory w ++ omap to_chat_msg good) w).
Proof.
  revert w. induction good as [| msg good IH]; intros w Hwf Hbad.
  - change ([] ++ bad :: rest) with (bad :: rest). cbn [buffer_messages].
    unfold mbind, M_bind, msg_getitem. rewrite Hbad.
    unfold raise, set_chat_memory. cbn [omap]. rewrite app_nil_r. by destruct w.
  - destruct (Hwf msg) as [[role Hrole] [content Hcontent]]; [by left |].
    assert (∀ w', buffer_messages (good ++ bad :: rest) w'
                  = (Raise (Exn "KeyError" "role"),
                     set_chat_memory (chat_memory w' ++ omap to_chat_msg good) w'))
      as IH' by (intros w'; apply IH; [intros ? ?; apply Hwf; by right | done]).
    change ((msg :: good) ++ bad :: rest) with (msg :: (good ++ bad :: rest)).
    cbn [buffer_messages]. rewrite omap_to_chat_msg_cons.
    unfold to_chat_msg, msg_getitem. rewrite Hrole, Hcontent. run.
    destruct (bool_decide (role = "user")); run;
      [| destruct (bool_decide (role = "assistant")); run];
      rewrite IH'; unfold set_chat_memory;
      cbn [files clock rng mem0_adds chat_memory];
      rewrite <- ?app_assoc; by destruct w.
Qed.

Lemma save_memory_empty user w :
  chat_memory w = [] →
  _save_memory user w
  = (Ok (),
     World (<[memory_path user :=
                JObject (ConvData {[ "user_id" := user;
                                     "last_updated" := isoformat (clock w) ]}
                                  (Some []))]> (files w))
           (S (clock w)) (rng w) (mem0_adds w) (chat_memory w)).
Proof. intros Hbuf. unfold _save_memory. run. rewrite Hbuf. run. reflexivity. Qed.

(** X12.  [add_conversation] with messages that all have a role and a
    content succeeds and counts every message given, while the buffer only
    gains the user and assistant ones, in order; a message of another role
    is counted and dropped.  When the buffer is not empty afterwards, no
    file is written. *)
Theorem add_conversation_buffers_known_roles user msgs w :
  (∀ msg : stored_message, msg ∈ msgs →
     is_Some (msg !! "role") ∧ is_Some (msg !! "content")) →
  ∃ w', add_conversation user msgs w = (Ok (Some (length msgs)), w')
        ∧ chat_memory w' = chat_memory w ++ omap to_chat_msg msgs
        ∧ (chat_memory w' ≠ [] → files w' = files w).
Proof.
  intros Hwf. unfold add_conversation, try_catch, mbind, M_bind.
  rewrite (buffer_messages_complete msgs w Hwf).
  set (w1 := set_chat_memory _ w).
  destruct (chat_memory w1) as [| c cs] eqn:Hbuf.
  - rewrite (save_memory_empty user w1 Hbuf). run.
    eexists. split; [reflexivity |]. cbn [chat_memory].
    split; [reflexivity |]. intros Hne. by rewrite Hbuf in Hne.
  - rewrite save_memory_nonempty by (by rewrite Hbuf). run.
    eexists. split; [reflexivity |]. cbn [chat_memory].
    split; [reflexivity |]. done.
Qed.

(** X13.  When a message of the list has no role, [add_conversation] fails,
    but the messages before it have already gone to the buffer and stay
    there; no file is written. *)
Theorem add_conversation_keeps_partial_buffer user good bad rest w :
  (∀ msg : stored_message, msg ∈ good →
     is_Some (msg !! "role") ∧ is_Some (msg !! "content")) →
  bad !! "role" = None →
  ∃ w', add_conversation user (good ++ bad :: rest) w = (Ok None, w')
        ∧ chat_memory w' = chat_memory w ++ omap to_chat_msg good
        ∧ files w' = files w.
Proof.
  intros Hwf Hbad. unfold add_conversation, try_catch, mbind, M_bind.
  rewrite (buffer_messages_stops good bad rest w Hwf Hbad). run.
  eexists. split; [reflexivity |]. done.
Qed.

(** * Further properties: listing the conversations *)

(** Later entries are not more recent: the order of the list returned. *)
Definition not_older (a b : conv_summary) : Prop :=
  String.le (s_updated_at b) (s_updated_at a).

(** The summary [get_all_conversations] makes of an object read from the
    file [filename], up to the two defaults taken from the clock. *)
Definition summarizes (filename : string) (d : conv_data) (s : conv_summary) : Prop :=
  s_id s = default (strip_conv_affixes filename) (fields d !! "id")
  ∧ s_title s = default "New Chat" (fields d !! "title")
  ∧ s_message_count s = length (default [] (messages d))
  ∧ (∀ t, fields d !! "updated_at" = Some t → s_updated_at s = t)
  ∧ (∀ t, fields d !! "created_at" = Some t → s_created_at s = t).

Lemma insert_desc_elem x y l : y ∈ insert_desc x l ↔ y = x ∨ y ∈ l.
Proof.
  induction l as [| z l IH]; cbn [insert_desc].
  - rewrite list_elem_of_singleton.
    split; [by left | by intros [? | ?%elem_of_nil]].
  - case_bool_decide; rewrite !elem_of_cons, ?IH; [done |].
    split; [intros [? | [? | ?]] | intros [? | [? | ?]]]; auto.
Qed.

Lemma insert_desc_length x l : length (insert_desc x l) = S (length l).
Proof.
  induction l as [| z l IH]; cbn [insert_desc]; [done |].
  case_bool_decide; cbn [length]; by rewrite ?IH.
Qed.

Lemma insert_desc_sorted x l :
  StronglySorted not_older l → StronglySorted not_older (insert_desc x l).
Proof.
  induction 1 as [| y l Hsorted IH Hall]; cbn [insert_desc].
  - repeat constructor.
  - case_bool_decide as Hle.
    + constructor; [by constructor |].
      constructor; [exact Hle |].
      eapply Forall_impl; [exact Hall |]. intros z Hz. unfold not_older in *.
      by etrans.
    + constructor; [exact IH |].
      apply Forall_forall. intros z [-> | Hz]%insert_desc_elem.
      * unfold not_older. by destruct (total String.le (s_updated_at y) (s_updated_at x)).
      * by eapply Forall_forall in Hall.
Qed.

Lemma sort_desc_sorted l : StronglySorted not_older (sort_desc l).
Proof.
  induction l as [| x l IH]; cbn; [constructor | by apply insert_desc_sorted].
Qed.

Lemma sort_desc_elem y l : y ∈ sort_desc l ↔ y ∈ l.
Proof.
  induction l as [| x l IH]; cbn; [done |].
  rewrite insert_desc_elem, elem_of_cons. unfold sort_desc in IH. by rewrite IH.
Qed.

Lemma sort_desc_length l : length (sort_desc l) = length l.
Proof.
  induction l as [| x l IH]; cbn; [done |].
  rewrite insert_desc_length. unfold sort_desc in IH. by rewrite IH.
Qed.

(** Reading one file: an object gives its summary and costs two readings
    of the clock; anything else raises with the world as it was. *)
Lemma summarize_run filename w :
  (∃ d s, files w !! conv_file filename = Some (JObject d)
          ∧ summarize filename w
            = (Ok s, World (files w) (S (S (clock w))) (rng w) (mem0_adds w)
                           (chat_memory w))
          ∧ summarizes filename d s)
  ∨ ((∀ d, files w !! conv_file filename ≠ Some (JObject d))
     ∧ ∃ e, summarize filename w = (Raise e, w)).
Proof.
  unfold summarize.
  destruct (files w !! conv_file filename) as [[| d | l] |] eqn:Hf.
  - right. split; [done |]. run_with Hf Hf. eauto.
  - left. exists d. eexists. split; [done |]. run_with Hf Hf.
    split; [reflexivity |]. unfold summarizes. cbn.
    repeat split; try done; by intros t ->.
  - right. split; [done |]. run_with Hf Hf. eauto.
  - right. split; [done |]. run_with Hf Hf. eauto.
Qed.

Lemma read_conversations_run names w :
  ∃ l w', read_conversations names w = (Ok l, w')
          ∧ files w' = files w ∧ rng w' = rng w
          ∧ mem0_adds w' = mem0_adds w ∧ chat_memory w' = chat_memory w
          ∧ length l ≤ length names
          ∧ (∀ s, s ∈ l →
               ∃ filename d, filename ∈ names
                             ∧ files w !! conv_file filename = Some (JObject d)
                             ∧ summarizes filename d s)
          ∧ (∀ filename d, filename ∈ names →
               endswith ".json" filename = true →
               Str.startswith "conv_" filename = true →
               files w !! conv_file filename = Some (JObject d) →
               ∃ s, s ∈ l ∧ summarizes filename d s).
Proof.
  revert w. induction names as [| filename rest IH]; intros w.
  - exists [], w. cbn. repeat split; try done.
    + by intros s ?%elem_of_nil.
    + by intros ? ? ?%elem_of_nil.
  - cbn [read_conversations].
    destruct (endswith ".json" filename && Str.startswith "conv_" filename) eqn:Hname.
    + apply andb_true_iff in Hname as [Hend Hstart].
      destruct (summarize_run filename w)
        as [(d & s & Hf & Hrun & Hs) | (Hnot & e & Hrun)].
      * set (w1 := World _ _ _ _ _) in Hrun.
        destruct (IH w1) as (l & w' & Hrest & Hfiles & Hrng & Hidx & Hbuf & Hlen
                             & Hsound & Hcomplete).
        exists (s :: l), w'.
        unfold mbind, M_bind, try_catch. rewrite Hrun.
        unfold mret at 1, M_ret at 1. rewrite Hrest.
        split; [reflexivity |]. repeat (split; [done |]).
        split; [cbn [length]; lia |]. split.
        -- intros s' [-> | Hs']%elem_of_cons.
           ++ exists filename, d. split; [by left | done].
           ++ destruct (Hsound s' Hs') as (f & d' & Hin & Hf' & Hsum).
              exists f, d'. split; [by right | done].
        -- intros f d' [-> | Hin]%elem_of_cons Hend' Hstart' Hf'.
           ++ exists s. split; [by left |]. by simplify_eq.
           ++ destruct (Hcomplete f d' Hin Hend' Hstart' Hf') as (s' & Hs' & Hsum).
              exists s'. split; [by right | done].
      * destruct (IH w) as (l & w' & Hrest & Hfiles & Hrng & Hidx & Hbuf & Hlen
                            & Hsound & Hcomplete).
        exists l, w'.
        unfold mbind, M_bind, try_catch. rewrite Hrun.
        unfold mret at 1, M_ret at 1. rewrite Hrest.
        split; [reflexivity |]. repeat (split; [done |]).
        split; [cbn [length]; lia |]. split.
        -- intros s' Hs'. destruct (Hsound s' Hs') as (f & d' & Hin & Hf' & Hsum).
           exists f, d'. split; [by right | done].
        -- intros f d' [-> | Hin]%elem_of_cons Hend' Hstart' Hf'.
           ++ by destruct (Hnot d').
           ++ by apply (Hcomplete f d').
    + destruct (IH w) as (l & w' & Hrest & Hfiles & Hrng & Hidx & Hbuf & Hlen
                          & Hsound & Hcomplete).
      exists l, w'. split; [exact Hrest |]. repeat (split; [done |]).
      split; [cbn [length]; lia |]. split.
      * intros s' Hs'. destruct (Hsound s' Hs') as (f & d' & Hin & Hf' & Hsum).
        exists f, d'. split; [by right | done].
      * intros f d' [-> | Hin]%elem_of_cons Hend' Hstart' Hf'.
        -- rewrite Hend', Hstart' in Hname. discriminate Hname.
        -- by apply (Hcomplete f d').
Qed.

(** X14.  [get_all_conversations] never raises and writes no file.  Its
    list is ordered by [updated_at], most recent first; it has at most one
    entry for each name of the directory listing, and every entry is the
    summary of an object stored under a listed name: its title (["New Chat"]
    when missing) and the number of its messages. *)
Theorem conversations_listed_most_recent_first w :
  ∃ l w', get_all_conversations w = (Ok l, w')
          ∧ files w' = files w
          ∧ StronglySorted not_older l
          ∧ length l ≤ length (listdir (files w))
          ∧ ∀ s, s ∈ l →
              ∃ filename d, filename ∈ listdir (files w)
                            ∧ files w !! conv_file filename = Some (JObject d)
                            ∧ summarizes filename d s.
Proof.
  destruct (read_conversations_run (listdir (files w)) w)
    as (l & w' & Hrun & Hfiles & _ & _ & _ & Hlen & Hsound & _).
  exists (sort_desc l), w'.
  unfold get_all_conversations, try_catch, mbind, M_bind, os_listdir. rewrite Hrun.
  split; [reflexivity |]. split; [exact Hfiles |].
  split; [apply sort_desc_sorted |].
  split; [rewrite sort_desc_length; exact Hlen |].
  intros s Hs. apply Hsound. by apply sort_desc_elem.
Qed.

Lemma rev_app_append (s t : string) :
  String.rev_app s t = String.rev_app s "" +:+ t.
Proof.
  revert t. induction s as [| c s IH]; intros t; [done |].
  cbn [String.rev_app]. rewrite (IH (String c t)), (IH (String c "")).
  by rewrite str_app_assoc.
Qed.

Lemma rev_app_app (s t u : string) :
  String.rev_app (s +:+ t) u = String.rev_app t (String.rev_app s u).
Proof.
  revert u. induction s as [| c s IH]; intros u; [done |].
  rewrite str_app_cons. cbn [String.rev_app]. apply IH.
Qed.

Lemma endswith_app (pre suffix : string) : endswith suffix (pre +:+ suffix) = true.
Proof.
  unfold endswith, String.rev.
  rewrite rev_app_app, (rev_app_append suffix (String.rev_app pre "")).
  apply startswith_app.
Qed.

Lemma take_app_length (s t : string) : Str.take (String.length s) (s +:+ t) = s.
Proof.
  induction s as [| c s IH]; [by destruct t |].
  rewrite str_app_cons. cbn. by rewrite IH.
Qed.

(** The file name of a conversation, as the listing gives it. *)
Definition conv_filename (cid : string) : string := "conv_" +:+ cid +:+ ".json".

Lemma conv_filename_recognised cid :
  conv_file (conv_filename cid) = conv_path cid
  ∧ endswith ".json" (conv_filename cid) = true
  ∧ Str.startswith "conv_" (conv_filename cid) = true
  ∧ strip_conv_affixes (conv_filename cid) = cid.
Proof.
  split; [reflexivity |]. unfold conv_filename.
  split; [rewrite <- str_app_assoc; apply endswith_app |].
  split; [apply startswith_app |].
  unfold strip_conv_affixes.
  rewrite <- str_app_assoc, str_length_app.
  replace (String.length ("conv_" +:+ cid) + String.length ".json" - 5)
    with (String.length ("conv_" +:+ cid)) by (cbn; lia).
  by rewrite take_app_length.
Qed.

(** X15.  A stored conversation whose file the directory lists appears in
    the list of [get_all_conversations], with its title, the number of its
    messages, and as identifier the stored one or, when the object has
    none, the one cut out of the file name. *)
Theorem stored_conversation_is_listed cid w d :
  conv_filename cid ∈ listdir (files w) →
  files w !! conv_path cid = Some (JObject d) →
  ∃ l w' s, get_all_conversations w = (Ok l, w')
            ∧ s ∈ l
            ∧ s_id s = default cid (fields d !! "id")
            ∧ s_title s = default "New Chat" (fields d !! "title")
            ∧ s_message_count s = length (default [] (messages d)).
Proof.
  intros Hlisted Hf.
  destruct (conv_filename_recognised cid) as (Hpath & Hend & Hstart & Hstrip).
  destruct (read_conversations_run (listdir (files w)) w)
    as (l & w' & Hrun & _ & _ & _ & _ & _ & _ & Hcomplete).
  destruct (Hcomplete (conv_filename cid) d Hlisted Hend Hstart)
    as (s & Hs & Hid & Htitle & Hcount & _); [by rewrite Hpath |].
  exists (sort_desc l), w', s.
  unfold get_all_conversations, try_catch, mbind, M_bind, os_listdir. rewrite Hrun.
  split; [reflexivity |]. split; [by apply sort_desc_elem |].
  rewrite Hstrip in Hid. done.
Qed.

(** * Further properties of the tutor service *)

(** X16.  Whatever the execution models do, [chat_with_tutor] reports
    success whenever the routed arguments are a mapping, and names the tool
    used unless it is the chat tool.  It fails when a tool that reads its
    arguments gets arguments that are no mapping, and then no execution
    model is called. *)
Theorem chat_with_tutor_succeeds_on_mappings message history memories profile :
  ∃ r, _route_message message = Ok r
       ∧ ((∃ d, args r = VDict d) →
          ∃ response,
            fst (chat_with_tutor message history memories profile)
            = ChatSuccess response
                (if decide (tool r = "chat") then None else Some (tool r)))
       ∧ (tool r ∈ ["translate"; "teach"; "exercise"] →
          (∃ repr, args r = VOther repr) →
          ∃ error, chat_with_tutor message history memories profile
                   = (ChatFailure error, [])).
Proof.
  destruct (route_message_total message) as [r Hroute].
  exists r. split; [exact Hroute |].
  unfold chat_with_tutor. rewrite Hroute.
  unfold _execute_and_respond, build_task, mbind, result_bind, py_get.
  split.
  - intros [d ->].
    repeat case_decide; cbn [fst]; eauto.
  - intros Htool [repr ->].
    repeat case_decide; cbn; eauto.
    all: exfalso; rewrite !elem_of_cons, elem_of_nil in Htool;
      destruct Htool as [? | [? | [? | []]]]; done.
Qed.

(** X17.  A tool name outside [translate], [teach] and [exercise] is
    handled as the chat tool: the routed arguments are not read, even when
    they are no mapping, and the reply is the one of the chat tool. *)
Theorem unknown_tool_is_chat tool args message memories profile history :
  tool ∉ ["translate"; "teach"; "exercise"] →
  _execute_and_respond tool args message memories profile history
  = _execute_and_respond "chat" (VDict ∅) message memories profile history
  ∧ ∃ reply call, _execute_and_respond tool args message memories profile history
                  = (Ok reply, [call]).
Proof.
  intros Htool.
  assert (tool ≠ "translate" ∧ tool ≠ "teach" ∧ tool ≠ "exercise") as (H1 & H2 & H3).
  { repeat split; intros ->; apply Htool; repeat constructor. }
  unfold _execute_and_respond, build_task.
  rewrite !(decide_False (P := tool = _)) by done.
  rewrite !decide_False by done.
  split; [reflexivity |]. eauto.
Qed.

(** X18.  Routing and execution together: when the router's tool call for
    [translate] carries an argument string that is not JSON, the whole user
    message is translated, to the target language of the profile, or to
    Spanish when the profile names none. *)
Theorem unparsed_translate_arguments_default message history memories profile
    response tc rest s :
  ollama_chat function_model message = Ok response →
  tool_calls response = tc :: rest →
  fn_name tc = "translate" → fn_arguments tc = RawStr s → json_loads s = None →
  let target := default "Spanish" (default ∅ profile !! "target_language") in
  let outcome := translation_llm (translate_prompt target message) in
  chat_with_tutor message history memories profile
  = (ChatSuccess
       (match outcome with
        | Ok content => translation_reply target (Str.strip content)
        | Raise e => translation_apology e
        end)
       (Some "translate"),
     [InvokeTranslation (translate_prompt target message) outcome]).
Proof.
  intros Hchat Hcalls Hname Hargs Hjson target outcome.
  assert (_route_message message = Ok (Route "translate" (VDict ∅))) as Hroute.
  { unfold _route_message, try_except, mbind, result_bind, decode_args.
    by rewrite Hchat, Hcalls, Hargs, Hjson, Hname. }
  unfold chat_with_tutor. rewrite Hroute. cbn [tool args].
  unfold _execute_and_respond, py_get, mbind, result_bind.
  rewrite decide_True by done. rewrite !lookup_empty. cbn [from_option id].
  rewrite decide_False by done. reflexivity.
Qed.

(** X19.  An execution calls at most one model, and the right one: the
    translation model for the [translate] tool and no other, the reasoning
    model for every other tool. *)
Theorem one_model_call_per_execution tool args message memories profile history :
  let calls := snd (_execute_and_respond tool args message memories profile history) in
  length calls ≤ 1
  ∧ (tool = "translate" →
     ∀ i, i ∈ calls → ∃ prompt, i = InvokeTranslation prompt (translation_llm prompt))
  ∧ (tool ≠ "translate" →
     ∀ i, i ∈ calls →
          ∃ system task, i = InvokeReasoning system task (reasoning_llm system task)).
Proof.
  cbv zeta. unfold _execute_and_respond, mbind, result_bind.
  destruct (decide (tool = "translate")) as [Htool | Htool].
  - destruct (py_get args "text" message); [| cbn; split; [lia |]; split;
      [by intros _ i ?%elem_of_nil | done]].
    destruct (py_get args "target_language" _); cbn [snd length].
    + split; [lia |]. split; [| done].
      intros _ i ->%list_elem_of_singleton. eauto.
    + split; [lia |]. split; [by intros _ i ?%elem_of_nil | done].
  - destruct (build_task _ _ _ _ _); cbn [snd length].
    + split; [lia |]. split; [done |].
      intros _ i ->%list_elem_of_singleton. eauto.
    + split; [lia |]. split; [done | by intros _ i ?%elem_of_nil].
Qed.

(** X20.  [translate_text] and the [translate] tool send the same prompt
    and strip the answer alike: with both arguments given, the reply of the
    tool is the translation template around the text [translate_text]
    answers, and the apology around its error when it fails. *)
Theorem translate_tool_agrees_with_translate_text d text target message memories
    profile history :
  d !! "text" = Some text → d !! "target_language" = Some target →
  fst (_execute_and_respond "translate" (VDict d) message memories profile history)
  = Ok (match translate_text text target with
        | Translated translated _ => translation_reply target translated
        | TranslateFailed error =>
            "Sorry, I had trouble translating that: " +:+ error
        end).
Proof.
  intros Htext Htarget.
  unfold _execute_and_respond, translate_text, py_get, mbind, result_bind.
  rewrite decide_True by done. rewrite Htext, Htarget. cbn [from_option id fst].
  change ("Translate to " +:+ target +:+ ": " +:+ text) with (translate_prompt target text).
  by destruct (translation_llm (translate_prompt target text)).
Qed.

(** X21.  [generate_exercise] asks for the difficulty in the message only:
    when the router answers with the [exercise] tool, the task given to the
    reasoning model takes its difficulty from the routed arguments, or
    [beginner], and its language from them or from the language asked for.
    A failure of the reasoning model is reported as a success whose
    exercise is the apology. *)
Theorem generate_exercise_uses_routed_arguments language difficulty d :
  _route_message ("Give me a " +:+ difficulty +:+ " " +:+ language +:+ " exercise")
  = Ok (Route "exercise" (VDict d)) →
  let system := system_prompt "Student" language [] in
  let task := exercise_task (default "beginner" (d !! "difficulty"))
                            (default language (d !! "language")) in
  generate_exercise language difficulty
  = ((true,
      match reasoning_llm system task with
      | Ok content => Str.strip content
      | Raise e => error_apology (exn_str e)
      end),
     [InvokeReasoning system task (reasoning_llm system task)]).
Proof.
  intros Hroute system task.
  unfold generate_exercise, chat_with_tutor. rewrite Hroute. cbn [tool args].
  unfold _execute_and_respond, build_task, py_get, mbind, result_bind.
  rewrite decide_False by done. rewrite decide_False by done.
  rewrite decide_True by done. cbn [from_option id].
  rewrite lookup_singleton_ne by done. rewrite lookup_singleton_eq.
  cbn [from_option id]. reflexivity.
Qed.

(** * Further properties of the turn and the chat view *)

Lemma filter_same_length {A} (P : A → Prop) `{∀ x, Decision (P x)} (l : list A) :
  length (filter P l) = length l → filter P l = l.
Proof.
  induction l as [| x l IH]; [done |].
  destruct (decide (P x)) as [Hx | Hx].
  - rewrite filter_cons_True by done. cbn [length]. intros [=]. f_equal. by apply IH.
  - rewrite filter_cons_False by done. intros Hlen.
    pose proof (length_filter P l). cbn [length] in Hlen. lia.
Qed.

(** What [load_conversation] answers, read off the file of the
    conversation. *)
Definition loaded (w : world) (cid : string) : list stored_message :=
  match files w !! conv_path cid with
  | Some (JObject d) => default [] (messages d)
  | _ => []
  end.

Lemma load_conversation_run cid w : load_conversation cid w = (Ok (loaded w cid), w).
Proof.
  unfold load_conversation, loaded.
  destruct (files w !! conv_path cid) as [[| d | l] |] eqn:Hf; run_with Hf Hf; reflexivity.
Qed.

Lemma delete_message_run cid message_id w :
  ∃ b w', delete_message_from_conversation cid message_id w = (Ok b, w')
          ∧ loaded w' cid
            = filter (λ msg : stored_message, msg !! "id" ≠ Some message_id) (loaded w cid)
          ∧ mem0_adds w' = mem0_adds w
          ∧ ∀ p, p ≠ conv_path cid → files w' !! p = files w !! p.
Proof.
  destruct (files w !! conv_path cid) as [[| d | l] |] eqn:Hf.
  - exists false, w. split; [| by unfold loaded; rewrite Hf].
    unfold delete_message_from_conversation. run_with Hf Hf. reflexivity.
  - destruct (messages d) as [msgs |] eqn:Hm.
    + destruct (decide (length (filter (λ msg : stored_message,
                                          msg !! "id" ≠ Some message_id) msgs)
                        = length msgs)) as [Hlen | Hlen].
      * exists false, w. split.
        { unfold delete_message_from_conversation. run_with Hf Hm.
          rewrite decide_True by done. reflexivity. }
        unfold loaded. rewrite Hf, Hm. cbn [from_option id].
        by rewrite filter_same_length.
      * eexists true, _. split; [by apply (delete_message_stored cid message_id w d msgs) |].
        unfold loaded. cbn [files mem0_adds]. rewrite lookup_insert_eq, Hf, Hm.
        split; [done |]. split; [done |]. intros p Hp. by rewrite lookup_insert_ne.
    + exists false, w. split; [| by unfold loaded; rewrite Hf, Hm].
      unfold delete_message_from_conversation. run_with Hf Hm. reflexivity.
  - exists false, w. split; [| by unfold loaded; rewrite Hf].
    unfold delete_message_from_conversation. run_with Hf Hf. reflexivity.
  - exists false, w. split; [| by unfold loaded; rewrite Hf].
    unfold delete_message_from_conversation. run_with Hf Hf. reflexivity.
Qed.

Lemma clear_conversation_run cid w :
  ∃ b w', clear_conversation cid w = (Ok b, w')
          ∧ loaded w' cid = []
          ∧ ∀ p, p ≠ conv_path cid → files w' !! p = files w !! p.
Proof.
  destruct (files w !! conv_path cid) as [[| d | l] |] eqn:Hf.
  - exists false, w. split; [| by unfold loaded; rewrite Hf].
    unfold clear_conversation. run_with Hf Hf. reflexivity.
  - eexists true, _. split.
    { unfold clear_conversation. run_with Hf Hf. reflexivity. }
    unfold loaded. cbn [files]. rewrite lookup_insert_eq.
    split; [done |]. intros p Hp. by rewrite lookup_insert_ne.
  - exists false, w. split; [| by unfold loaded; rewrite Hf].
    unfold clear_conversation. run_with Hf Hf. reflexivity.
  - exists false, w. split; [| by unfold loaded; rewrite Hf].
    unfold clear_conversation. run_with Hf Hf. reflexivity.
Qed.

(** What the chat area shows of a stored message: its role, the user's when
    it has none, and its content. *)
Definition shown (msg : stored_message) : string * string :=
  (default "user" (msg !! "role"), default "" (msg !! "content")).

Lemma load_messages_chat_area msgs a :
  chat_area (load_messages msgs a) = shown <$> msgs.
Proof.
  unfold load_messages.
  assert (∀ a0, chat_area (foldl (λ a1 msg, chat_area_add (default "user" (msg !! "role"))
                                               (default "" (msg !! "content")) a1) a0 msgs)
                = chat_area a0 ++ (shown <$> msgs)) as Hfold.
  { induction msgs as [| msg rest IH]; intros a0; cbn [foldl fmap list_fmap].
    - by rewrite app_nil_r.
    - rewrite IH. cbn [chat_area chat_area_add]. by rewrite <- app_assoc. }
  by rewrite Hfold.
Qed.

Lemma load_messages_active msgs a :
  active_conversation (load_messages msgs a) = active_conversation a.
Proof.
  unfold load_messages.
  assert (∀ a0, active_conversation
                  (foldl (λ a1 msg, chat_area_add (default "user" (msg !! "role"))
                                      (default "" (msg !! "content")) a1) a0 msgs)
                = active_conversation a0) as Hfold.
  { induction msgs as [| msg rest IH]; intros a0; cbn [foldl]; [done |]. by rewrite IH. }
  by rewrite Hfold.
Qed.

(** X22.  After [_delete_message] in a current conversation the chat view
    shows exactly what the store holds: the messages that loaded before,
    without those carrying the identifier, in their order.  This holds
    whatever the file of the conversation is; nothing is raised and no
    other file is touched.  Without a current conversation nothing
    happens. *)
Theorem delete_message_refreshes_view a message_id w :
  (∀ cid l, active_conversation a = Some cid → load_conversation cid w = (Ok l, w) →
     let kept := filter (λ msg : stored_message, msg !! "id" ≠ Some message_id) l in
     ∃ a' w', _delete_message a message_id w = (Ok a', w')
              ∧ load_conversation cid w' = (Ok kept, w')
              ∧ chat_area a' = shown <$> kept
              ∧ active_conversation a' = Some cid
              ∧ ∀ p, p ≠ conv_path cid → files w' !! p = files w !! p)
  ∧ (active_conversation a = None → _delete_message a message_id w = (Ok a, w)).
Proof.
  split.
  - intros cid l Hactive Hload kept.
    rewrite load_conversation_run in Hload. injection Hload as <-.
    destruct (delete_message_run cid message_id w) as (b & w' & Hrun & Hloaded & _ & Hframe).
    exists (load_messages kept a), w'.
    unfold _delete_message. rewrite Hactive.
    unfold try_catch, mbind, M_bind.
    rewrite Hrun, !load_conversation_run, Hloaded.
    split; [reflexivity |]. split; [reflexivity |].
    split; [apply load_messages_chat_area |].
    split; [by rewrite load_messages_active | exact Hframe].
  - intros Hactive. unfold _delete_message. by rewrite Hactive.
Qed.

(** X23.  After [_clear_chat] in a current conversation the chat view is
    empty and so is the conversation as it loads, whatever its file holds:
    the view is emptied even when the store answers [False].  Nothing is
    raised, no other file is touched, and without a current conversation
    nothing happens. *)
Theorem clear_chat_empties_view_and_store a w :
  (∀ cid, active_conversation a = Some cid →
     ∃ a' w', _clear_chat a w = (Ok a', w')
              ∧ chat_area a' = []
              ∧ load_conversation cid w' = (Ok [], w')
              ∧ active_conversation a' = Some cid
              ∧ ∀ p, p ≠ conv_path cid → files w' !! p = files w !! p)
  ∧ (active_conversation a = None → _clear_chat a w = (Ok a, w)).
Proof.
  split.
  - intros cid Hactive.
    destruct (clear_conversation_run cid w) as (b & w' & Hrun & Hloaded & Hframe).
    exists (set_chat_area [] a), w'.
    unfold _clear_chat. rewrite Hactive.
    unfold try_catch, mbind, M_bind. rewrite Hrun, load_conversation_run, Hloaded.
    split; [reflexivity |]. split; [reflexivity |]. split; [reflexivity |].
    split; [exact Hactive | exact Hframe].
  - intros Hactive. unfold _clear_chat. by rewrite Hactive.
Qed.

Lemma add_message_run cid role content w :
  ∃ b w', add_message_to_conversation cid role content w = (Ok b, w')
          ∧ mem0_adds w' = mem0_adds w.
Proof.
  unfold add_message_to_conversation.
  destruct (files w !! conv_path cid) as [[| d | l] |] eqn:Hf;
    [ | destruct (messages d) eqn:Hm | | ];
    try run_with Hf Hm; try run_with Hf Hf; eauto.
Qed.

Lemma update_conversation_title_run cid title w :
  ∃ b w', update_conversation_title cid title w = (Ok b, w')
          ∧ mem0_adds w' = mem0_adds w.
Proof.
  unfold update_conversation_title.
  destruct (files w !! conv_path cid) as [[| d | l] |] eqn:Hf; run_with Hf Hf; eauto.
Qed.

Lemma update_title_run a w :
  ∃ w', _update_conversation_title a w = (Ok (), w') ∧ mem0_adds w' = mem0_adds w.
Proof.
  unfold _update_conversation_title.
  destruct (active_conversation a) as [cid |]; [| by exists w].
  unfold try_catch, mbind, M_bind. rewrite load_conversation_run.
  destruct (loaded w cid) as [| first rest]; [by exists w |].
  destruct (update_conversation_title_run cid
              (title_of (default "New Chat" (first !! "content"))) w)
    as (b & w' & -> & Hadds).
  by exists w'.
Qed.

(** The exchange the Mem0 worker of [_handle_response] offers to the index,
    if it offers one. *)
Definition offered_exchange (a : app) (response : string) : option add_call :=
  if mem0 a then
    pm ← _pending_user_message a; Some (exchange_call a pm response)
  else None.

Lemma handle_response_run a response w :
  ∃ w', _handle_response a response w
        = (Ok (set_is_processing false (chat_area_add "assistant" response a)), w')
        ∧ mem0_adds w'
          = match offered_exchange a response with
            | Some call =>
                match mem0_add_raises call with
                | None => mem0_adds w ++ [call]
                | Some _ => mem0_adds w
                end
            | None => mem0_adds w
            end.
Proof.
  assert (∃ w1, match active_conversation a with
                | Some cid =>
                    _ ← add_message_to_conversation cid "assistant" response;
                    _update_conversation_title (chat_area_add "assistant" response a)
                | None => mret ()
                end w = (Ok (), w1) ∧ mem0_adds w1 = mem0_adds w) as (w1 & Hstore & Hadds).
  { destruct (active_conversation a) as [cid |]; [| by exists w].
    unfold mbind, M_bind.
    destruct (add_message_run cid "assistant" response w) as (b & w0 & -> & Hadds0).
    destruct (update_title_run (chat_area_add "assistant" response a) w0)
      as (w1 & -> & Hadds1).
    exists w1. by rewrite Hadds1. }
  unfold _handle_response, offered_exchange.
  rewrite active_conversation_chat_area_add.
  unfold mbind at 1, M_bind at 1. rewrite Hstore.
  cbn [mem0 _pending_user_message chat_area_add].
  destruct (mem0 a); [destruct (_pending_user_message a) as [pm |] |];
    unfold mbind, M_bind, option_bind, mret, M_ret.
  - rewrite store_in_mem0_run. eexists. split; [reflexivity |]. cbn [mem0_adds].
    by rewrite Hadds.
  - by exists w1.
  - by exists w1.
Qed.

(** X24.  [_handle_response] never raises, whatever the store and the
    index do: the reply is shown and the input is enabled again.  The index
    gains the exchange, with no metadata, when Mem0 is available and accepts
    it, and nothing else; when Mem0 raises, the failure is swallowed and the
    index stays as it was. *)
Theorem handle_response_never_raises a response w :
  ∃ a' w', _handle_response a response w = (Ok a', w')
           ∧ is_processing a' = false
           ∧ chat_area a' = chat_area a ++ [("assistant", response)]
           ∧ (mem0 a = false → mem0_adds w' = mem0_adds w)
           ∧ ∀ pm, mem0 a = true → _pending_user_message a = Some pm →
                   let call := exchange_call a pm response in
                   add_metadata call = ∅
                   ∧ (mem0_add_raises call = None → mem0_adds w' = mem0_adds w ++ [call])
                   ∧ (is_Some (mem0_add_raises call) → mem0_adds w' = mem0_adds w).
Proof.
  destruct (handle_response_run a response w) as (w' & Hrun & Hadds).
  eexists _, w'. split; [exact Hrun |]. split; [reflexivity |]. split; [reflexivity |].
  unfold offered_exchange in Hadds. split.
  - intros Hmem0. by rewrite Hmem0 in Hadds.
  - intros pm Hmem0 Hpm call. rewrite Hmem0, Hpm in Hadds. cbn in Hadds. fold call in Hadds.
    split; [reflexivity |]. split.
    + intros Hnone. by rewrite Hnone in Hadds.
    + intros [e He]. by rewrite He in Hadds.
Qed.

(** X25.  A turn never raises.  A message given while a turn is in flight,
    or a blank one, changes nothing at all.  Without a tutor service the
    view gains the apology and nothing is stored.  Otherwise the turn runs:
    the view gains the user message and the reply, in this order, and the
    input is enabled again. *)
Theorem turn_always_completes a message w :
  ∃ a' r w', handle_turn a message w = (Ok (a', r), w')
    ∧ (is_processing a = true ∨ Str.strip message = "" → a' = a ∧ r = None ∧ w' = w)
    ∧ (is_processing a = false → Str.strip message ≠ "" → tutor_service a = false →
       a' = chat_area_add "assistant" unavailable_reply a ∧ r = None ∧ w' = w)
    ∧ (is_processing a = false → Str.strip message ≠ "" → tutor_service a = true →
       ∃ reply calls, r = Some (reply, calls)
                      ∧ chat_area a' = chat_area a ++ [("user", message); ("assistant", reply)]
                      ∧ is_processing a' = false
                      ∧ _pending_user_message a' = Some message).
Proof.
  unfold handle_turn, _send_message.
  destruct (is_processing a) eqn:Hproc; cbn [orb].
  { exists a, None, w. split; [reflexivity |]. split; [done |]. split; done. }
  destruct (decide (Str.strip message = "")) as [Hblank | Hblank].
  { rewrite bool_decide_eq_true_2 by done.
    exists a, None, w. split; [reflexivity |]. split; [done |]. split; done. }
  rewrite bool_decide_eq_false_2 by done.
  destruct (tutor_service a) eqn:Htutor; cbn [negb].
  2: { eexists _, None, w. split; [reflexivity |].
       split; [by intros [? | ?] |]. split; done. }
  unfold mbind at 1 2 3 4, M_bind.
  rewrite active_conversation_chat_area_add, active_conversation_set_is_processing.
  set (a0 := chat_area_add "user" message (set_is_processing true a)).
  assert (∃ b w1, match active_conversation a with
                  | Some cid => add_message_to_conversation cid "user" message
                  | None => mret false
                  end w = (Ok b, w1)) as (b & w1 & ->).
  { destruct (active_conversation a) as [cid |]; [| by exists false, w].
    destruct (add_message_run cid "user" message w) as (b & w1 & -> & _). eauto. }
  assert (∃ l, match active_conversation a with
               | Some cid => load_conversation cid
               | None => mret []
               end w1 = (Ok l, w1)) as (l & ->).
  { destruct (active_conversation a) as [cid |]; [| by exists []].
    rewrite load_conversation_run. eauto. }
  unfold mbind, M_bind. rewrite search_memories_run. unfold mret, M_ret.
  destruct (get_response _ _) as [reply calls].
  destruct (handle_response_run (set_pending_user_message message a0) reply w1)
    as (w2 & Hrun & _).
  rewrite Hrun.
  eexists _, _, w2. split; [reflexivity |].
  split; [by intros [? | ?] |]. split; [done |].
  intros _ _ _. exists reply, calls. split; [reflexivity |].
  cbn [chat_area set_is_processing chat_area_add set_pending_user_message a0
       is_processing _pending_user_message].
  unfold a0. cbn. rewrite <- app_assoc. done.
Qed.

Lemma title_of_length (first_msg : string) : String.length (title_of first_msg) ≤ 53.
Proof.
  unfold title_of. rewrite str_length_app.
  destruct (decide (50 < String.length first_msg)).
  - rewrite take_length by lia. cbn. lia.
  - rewrite take_all by lia. cbn. lia.
Qed.

(** X26.  After a turn in a stored conversation the stored title is never
    longer than 53 characters, and it starts with the first 50 characters
    of the content of the first stored message. *)
Theorem title_after_turn_is_bounded a message cid msgs w :
  turn_in a message cid msgs w →
  ∃ title first,
    stored_title (snd (handle_turn a message w)) cid = Some title
    ∧ head (msgs ++ [new_message "user" message w]) = Some first
    ∧ String.length title ≤ 53
    ∧ Str.startswith (Str.take 50 (default "New Chat" (first !! "content"))) title = true.
Proof.
  intros Hturn.
  destruct (handle_turn_in_turn a message cid msgs w Hturn)
    as (a1 & w1 & a2 & w2 & am & _ & _ & Hrun & _ & _ & _ & Htitle & _).
  rewrite Hrun. cbn [snd].
  destruct (msgs ++ [new_message "user" message w]) as [| first rest] eqn:Hall;
    [by destruct msgs |].
  exists (title_of (default "New Chat" (first !! "content"))), first.
  split; [by apply Htitle |]. split; [done |].
  split; [apply title_of_length |]. apply startswith_app.
Qed.

(** X27.  The memory search of [_send_message] never raises and leaves the
    world as it is; no memory it hands on is the empty string, and there are
    at most as many as the backend gave.  Without Mem0, or when the search
    raises, there is none. *)
Theorem found_memories_are_not_blank a message w :
  ∃ l, search_memories a message w = (Ok l, w)
       ∧ (∀ t, t ∈ l → t ≠ "")
       ∧ (mem0 a = false → l = [])
       ∧ (∀ e, mem0_search (mem0_adds w) message (user_id a) 5 = Raise e → l = [])
       ∧ (∀ response, mem0 a = true →
            mem0_search (mem0_adds w) message (user_id a) 5 = Ok response →
            length l ≤ length (results_list response)
            ∧ ∀ t, t ∈ l ↔ t ≠ "" ∧ ∃ m, m ∈ results_list response ∧ memory_text m = t).
Proof.
  exists (found_memories a message (mem0_adds w)).
  split; [apply search_memories_run |]. unfold found_memories.
  split.
  { intros t. destruct (mem0 a); [| by intros ?%elem_of_nil].
    destruct (mem0_search _ _ _ _); [| by intros ?%elem_of_nil].
    by intros [? _]%list_elem_of_filter. }
  split; [by intros -> |].
  split; [intros e ->; by destruct (mem0 a) |].
  intros response -> ->. split.
  - etrans; [apply length_filter |]. by rewrite length_fmap.
  - intros t. rewrite list_elem_of_filter, list_elem_of_fmap.
    split; intros [Ht (m & Hm & Hin)]; (split; [done |]); exists m; done.
Qed.

(** * Further properties: what the models are given, and the buffer *)

Lemma contains_app_l (s t post : string) :
  Str.contains s t → Str.contains s (t +:+ post).
Proof.
  intros (u & v & ->). exists u, (v +:+ post). by rewrite !str_app_assoc.
Qed.

Lemma contains_join (sep x : string) (l : list string) :
  x ∈ l → Str.contains x (Str.join sep l).
Proof.
  induction l as [| y rest IH]; [by intros ?%elem_of_nil |].
  intros [-> | Hin]%elem_of_cons.
  - destruct rest; [apply contains_refl | apply contains_prefix].
  - destruct rest as [| z rest]; [by apply elem_of_nil in Hin |].
    change (Str.join sep (y :: z :: rest))
      with (y +:+ sep +:+ Str.join sep (z :: rest)).
    do 2 apply contains_app_r. by apply IH.
Qed.

(** X28.  What an execution hands to its model.  For a tool other than
    [translate] the one call goes to the reasoning model, and every memory
    found is in its system prompt, as a list item.  The chat tool puts the
    user message, between double quotes, and every line of the transcript
    into the task.  The tools [translate], [teach] and [exercise] do not
    look at the conversation history, and [translate] does not look at the
    memories either. *)
Theorem context_given_to_the_models tool args message memories profile history :
  (tool ≠ "translate" →
   ∀ reply calls,
     _execute_and_respond tool args message memories profile history = (Ok reply, calls) →
     ∃ system task,
       calls = [InvokeReasoning system task (reasoning_llm system task)]
       ∧ (∀ mem, mem ∈ memories → Str.contains ("- " +:+ mem) system)
       ∧ (tool ≠ "teach" → tool ≠ "exercise" →
          Str.contains (Str.dq +:+ message +:+ Str.dq) task
          ∧ ∀ line, line ∈ conv_lines history → Str.contains line task))
  ∧ (tool ∈ ["translate"; "teach"; "exercise"] →
     _execute_and_respond tool args message memories profile history
     = _execute_and_respond tool args message memories profile [])
  ∧ _execute_and_respond "translate" args message memories profile history
    = _execute_and_respond "translate" args message [] profile [].
Proof.
  split; [| split].
  - intros Htool reply calls. unfold _execute_and_respond.
    rewrite decide_False by done.
    destruct (build_task _ _ _ _ _) as [task |] eqn:Htask; [| done].
    intros [= <- <-]. eexists _, task. split; [reflexivity |]. split.
    + intros mem Hmem. unfold system_prompt.
      do 7 apply contains_app_r. apply contains_app_l.
      unfold memory_str. destruct memories as [| m0 ms] eqn:Hms;
        [by apply elem_of_nil in Hmem |].
      do 2 apply contains_app_r. apply contains_join.
      apply list_elem_of_fmap. by exists mem.
    + intros Hteach Hexercise. unfold build_task in Htask.
      rewrite !decide_False in Htask by done. injection Htask as <-.
      unfold chat_task. split.
      * exists "Student says: ", (Str.nl +:+ Str.nl +:+ conv_str history +:+ Str.nl
                                  +:+ Str.nl
                                  +:+ "Respond naturally as their tutor. Be friendly and helpful.").
        by rewrite !str_app_assoc.
      * intros line Hline. do 6 apply contains_app_r. apply contains_app_l.
        unfold conv_str. destruct history; [by apply elem_of_nil in Hline |].
        by apply contains_join.
  - intros Htool. unfold _execute_and_respond, build_task.
    rewrite !elem_of_cons, elem_of_nil in Htool.
    destruct Htool as [-> | [-> | [-> | []]]]; reflexivity.
  - reflexivity.
Qed.

(** [get_conversation_history]: its loop tests [isinstance(message,
    HumanMessage)] like the one of [_save_memory], with neither class
    imported; the handler of the method answers the empty list. *)
Definition get_conversation_history : M (list stored_message) :=
  try_catch
    (λ w,
       match chat_memory w with
       | _ :: _ => raise (Exn "NameError" "name 'HumanMessage' is not defined") w
       | [] => (mret [] : M (list stored_message)) w
       end)
    (λ e, mret []).

(** X29.  The buffer is never read back: [get_conversation_history]
    answers the empty list whatever the buffer holds, so also right after
    [add_conversation] has put messages there.  [clear_conversation_memory]
    empties the buffer and, the buffer being empty then, writes the memory
    file of the user anew, with no message; no other file is touched. *)
Theorem buffer_is_never_read_back user msgs w :
  get_conversation_history w = (Ok [], w)
  ∧ fst (get_conversation_history (snd (add_conversation user msgs w))) = Ok []
  ∧ ∃ w', clear_conversation_memory user w = (Ok (), w')
          ∧ chat_memory w' = []
          ∧ files w' !! memory_path user
            = Some (JObject (ConvData {[ "user_id" := user;
                                         "last_updated" := isoformat (clock w) ]}
                                      (Some [])))
          ∧ ∀ p, p ≠ memory_path user → files w' !! p = files w !! p.
Proof.
  assert (∀ w0, get_conversation_history w0 = (Ok [], w0)) as Hget.
  { intros w0. unfold get_conversation_history, try_catch.
    by destruct (chat_memory w0). }
  split; [apply Hget |]. split; [by rewrite Hget |].
  unfold clear_conversation_memory, try_catch, mbind, M_bind, chat_memory_clear.
  rewrite save_memory_empty by reflexivity.
  eexists. split; [reflexivity |]. cbn [files chat_memory clock].
  split; [reflexivity |]. split; [by rewrite lookup_insert_eq |].
  intros p Hp. by rewrite lookup_insert_ne.
Qed.

End Tutor.

(** * The pipeline on the example collaborators *)

Definition demo_route : string → result route :=
  _route_message demo_chat demo_loads "functiongemma".

Definition demo_send : app → string → M (app * option pending) :=
  _send_message demo_isoformat demo_uuid4 demo_search.

Definition demo_turn : app → string → M (app * option (string * list invocation)) :=
  handle_turn demo_chat demo_loads "functiongemma" demo_translation_llm
    demo_reasoning_llm demo_isoformat demo_uuid4 demo_search demo_add_raises.

(** The same with a reasoning model and a memory search that raise. *)
Definition failing_send : app → string → M (app * option pending) :=
  _send_message demo_isoformat demo_uuid4 failing_search.

Definition failing_turn : app → string → M (app * option (string * list invocation)) :=
  handle_turn demo_chat demo_loads "functiongemma" demo_translation_llm
    failing_reasoning_llm demo_isoformat demo_uuid4 failing_search demo_add_raises.

(** The world in which the second turn of the title example starts: a first
    turn "hola" in a new conversation, then the deletion of its user
    message, whose identifier is the first one drawn. *)
Definition after_first_turn : world :=
  snd (demo_turn demo_app "hola" (demo_world "New Chat" [])).

Definition app_after_first_turn : app :=
  match fst (demo_turn demo_app "hola" (demo_world "New Chat" [])) with
  | Ok (a, _) => a
  | Raise _ => demo_app
  end.

Definition after_deletion : world :=
  snd (delete_message_from_conversation demo_isoformat "c1" (demo_uuid4 0)
         after_first_turn).

Lemma demo_turn_in message msgs :
  Str.strip message ≠ "" →
  turn_in demo_app message "c1" msgs (demo_world "New Chat" msgs).
Proof. intros H. by repeat split. Qed.

(** C1 on three messages: a routing call that times out, a plain-text
    answer, and a tool call whose argument string is not JSON. *)
Lemma route_message_fallback_witness :
  demo_route "boom" = Ok chat_default
  ∧ demo_route "hola" = Ok chat_default
  ∧ demo_route "translate cat" = Ok (Route "translate" (VDict ∅)).
Proof.
  split; [| split].
  - destruct (route_message_fallback demo_chat demo_loads "functiongemma" "boom")
      as (_ & H & _).
    exact (H _ eq_refl).
  - destruct (route_message_fallback demo_chat demo_loads "functiongemma" "hola")
      as (_ & _ & H & _).
    exact (H _ eq_refl eq_refl).
  - destruct (route_message_fallback demo_chat demo_loads "functiongemma" "translate cat")
      as (_ & _ & _ & H).
    exact (H _ _ _ _ eq_refl eq_refl eq_refl eq_refl).
Defined.

(** C9 on a conversation of one message and an identifier it does not have. *)
Lemma delete_absent_message_noop_witness :
  let w := demo_world "hello" [stored_msg "m1" "user" "hello"] in
  delete_message_from_conversation demo_isoformat "c1" "m9" w = (Ok false, w)
  ∧ stored_messages w "c1" = Some [stored_msg "m1" "user" "hello"].
Proof.
  cbv zeta. split; [| reflexivity].
  refine (proj1 (delete_absent_message_noop demo_isoformat "c1" "m9"
                   (demo_world "hello" [stored_msg "m1" "user" "hello"])
                   _ [stored_msg "m1" "user" "hello"] _ _ _)).
  - reflexivity.
  - reflexivity.
  - intros msg ->%list_elem_of_singleton. vm_compute. discriminate.
Defined.

(** C6: with no conversation on disk, appending answers [False] and loading
    answers the empty list; nothing is raised. *)
Lemma unknown_conversation_returns_normally :
  add_message_to_conversation demo_isoformat demo_uuid4 "nope" "user" "hi" empty_world
  = (Ok false, empty_world)
  ∧ load_conversation "nope" empty_world = (Ok [], empty_world).
Proof. split; reflexivity. Qed.

Lemma unknown_conversation_is_not_an_error_witness :
  files empty_world !! conv_path "nope" = None
  ∧ add_message_to_conversation demo_isoformat demo_uuid4 "nope" "user" "hi" empty_world
    = (Ok false, empty_world).
Proof.
  assert (files empty_world !! conv_path "nope" = None) as H by reflexivity.
  split; [exact H |].
  exact (proj1 (unknown_conversation_is_not_an_error demo_isoformat demo_uuid4
                  "nope" "user" "hi" empty_world H)).
Defined.

(** C10 on a log that is full: the oldest of its 100 entries goes, the new
    entry comes last. *)
Lemma translation_log_bounded_witness :
  let new_entry :=
    TranslationEntry "cat" "chat" "English" "French" (demo_isoformat 0) ∅ in
  translation_log full_log_world "u1" = Some (replicate 100 old_entry)
  ∧ translation_log
      (snd (add_translation_memory demo_isoformat "u1" "cat" "chat" "English" "French"
              None full_log_world)) "u1"
    = Some (replicate 99 old_entry ++ [new_entry]).
Proof.
  cbv zeta.
  assert (translation_log full_log_world "u1" = Some (replicate 100 old_entry)) as H
    by reflexivity.
  split; [exact H |].
  destruct (translation_log_bounded demo_isoformat "u1" "cat" "chat" "English" "French"
              None full_log_world) as (_ & _ & _ & Hlog).
  destruct (Hlog _ H) as (-> & -> & _). reflexivity.
Defined.

(** C2 on the first turn of a new conversation. *)
Lemma user_message_persisted_before_reply_witness :
  turn_in demo_app "hola" "c1" [] (demo_world "New Chat" [])
  ∧ ∃ w1 w2 um am,
      snd (demo_send demo_app "hola" (demo_world "New Chat" [])) = w1
      ∧ stored_messages w1 "c1" = Some [um]
      ∧ snd (demo_turn demo_app "hola" (demo_world "New Chat" [])) = w2
      ∧ stored_messages w2 "c1" = Some [um; am]
      ∧ um !! "content" = Some "hola"
      ∧ am !! "content" = Some "Hola! Que tal?".
Proof.
  assert (turn_in demo_app "hola" "c1" [] (demo_world "New Chat" [])) as Hturn.
  { apply demo_turn_in. vm_compute. discriminate. }
  split; [exact Hturn |].
  destruct (user_message_persisted_before_reply demo_chat demo_loads "functiongemma"
              demo_translation_llm demo_reasoning_llm demo_isoformat demo_uuid4
              demo_search demo_add_raises demo_app "hola" "c1" [] _ Hturn)
    as (a1 & w1 & p & a2 & w2 & um & am & Hsend & Hs1 & _ & Hc & Hrun & Hs2 & _ & Hac).
  exists w1, w2, um, am. unfold demo_send, demo_turn. rewrite Hsend, Hrun.
  split; [reflexivity |]. split; [exact Hs1 |]. split; [reflexivity |].
  split; [exact Hs2 |]. split; [exact Hc |].
  rewrite Hac. f_equal.
  assert (demo_send demo_app "hola" (demo_world "New Chat" []) = (Ok (a1, Some p), w1))
    as Hsend' by exact Hsend.
  vm_compute in Hsend'. injection Hsend' as <- <- _. reflexivity.
Defined.

(** C3 on two turns.  In the chat turn "hola" the reasoning model refuses
    the connection; in the turn "translate cat", routed to [translate]
    with no usable argument, the translation model does. *)
Lemma execution_failure_apology_witness :
  let e := Exn "ConnectionError" "connection refused" in
  let w := demo_world "New Chat" [] in
  (turn_in demo_app "hola" "c1" [] w
   ∧ demo_route "hola" = Ok chat_default
   ∧ ∃ a2 w2 system task um am,
       failing_reasoning_llm system task = Raise e
       ∧ failing_turn demo_app "hola" w
         = (Ok (a2, Some ("Sorry, I encountered an error: connection refused",
                          [InvokeReasoning system task (Raise e)])), w2)
       ∧ stored_messages w2 "c1" = Some [um; am]
       ∧ um !! "content" = Some "hola"
       ∧ am !! "content" = Some "Sorry, I encountered an error: connection refused")
  ∧ (turn_in demo_app "translate cat" "c1" [] w
     ∧ demo_route "translate cat" = Ok (Route "translate" (VDict ∅))
     ∧ demo_translation_llm "Translate to French: translate cat" = Raise e
     ∧ ∃ a2 w2 um am,
         demo_turn demo_app "translate cat" w
         = (Ok (a2, Some ("Sorry, I had trouble translating that: connection refused",
                          [InvokeTranslation "Translate to French: translate cat"
                             (Raise e)])), w2)
         ∧ stored_messages w2 "c1" = Some [um; am]
         ∧ um !! "content" = Some "translate cat"
         ∧ am !! "content"
           = Some "Sorry, I had trouble translating that: connection refused").
Proof.
  cbv zeta. split.
  - assert (turn_in demo_app "hola" "c1" [] (demo_world "New Chat" [])) as Hturn.
    { apply demo_turn_in. vm_compute. discriminate. }
    assert (demo_route "hola" = Ok chat_default) as Hroute by reflexivity.
    split; [exact Hturn |]. split; [exact Hroute |].
    destruct (execution_failure_apology demo_chat demo_loads "functiongemma"
                demo_translation_llm failing_reasoning_llm demo_isoformat demo_uuid4
                failing_search demo_add_raises demo_app "hola" "c1" []
                (demo_world "New Chat" []) chat_default
                (Exn "ConnectionError" "connection refused") Hturn Hroute)
      as [_ Hreasoning].
    destruct (Hreasoning _ (ltac:(discriminate)) eq_refl eq_refl)
      as ((a2 & w2 & um & am & Hrun & Hstored & _ & Hum & _ & Ham) & _ & _).
    eexists a2, w2, _, _, um, am.
    split; [reflexivity |]. split; [exact Hrun |]. split; [exact Hstored |].
    split; [exact Hum | exact Ham].
  - assert (turn_in demo_app "translate cat" "c1" [] (demo_world "New Chat" [])) as Hturn.
    { apply demo_turn_in. vm_compute. discriminate. }
    assert (demo_route "translate cat" = Ok (Route "translate" (VDict ∅))) as Hroute
      by reflexivity.
    split; [exact Hturn |]. split; [exact Hroute |]. split; [reflexivity |].
    destruct (execution_failure_apology demo_chat demo_loads "functiongemma"
                demo_translation_llm demo_reasoning_llm demo_isoformat demo_uuid4
                demo_search demo_add_raises demo_app "translate cat" "c1" []
                (demo_world "New Chat" []) (Route "translate" (VDict ∅))
                (Exn "ConnectionError" "connection refused") Hturn Hroute)
      as [Htranslate _].
    destruct (Htranslate "translate cat" "French" eq_refl eq_refl eq_refl eq_refl)
      as ((a2 & w2 & um & am & Hrun & Hstored & _ & Hum & _ & Ham) & _ & _).
    exists a2, w2, um, am.
    split; [exact Hrun |]. split; [exact Hstored |].
    split; [exact Hum | exact Ham].
Defined.

(** C4 on a message of 51 characters, the first of its conversation. *)
Lemma first_message_sets_title_witness :
  let message := "How do I order a coffee with milk in Spanish today?" in
  turn_in demo_app message "c1" [] (demo_world "New Chat" [])
  ∧ String.length message = 51
  ∧ stored_title (snd (demo_turn demo_app message (demo_world "New Chat" []))) "c1"
    = Some "How do I order a coffee with milk in Spanish today...".
Proof.
  cbv zeta.
  assert (turn_in demo_app "How do I order a coffee with milk in Spanish today?" "c1" []
            (demo_world "New Chat" [])) as Hturn.
  { apply demo_turn_in. vm_compute. discriminate. }
  split; [exact Hturn |]. split; [reflexivity |].
  destruct (first_message_sets_title demo_chat demo_loads "functiongemma"
              demo_translation_llm demo_reasoning_llm demo_isoformat demo_uuid4
              demo_search demo_add_raises demo_app _ "c1" _ Hturn)
    as (a1 & w1 & p & um & a2 & w2 & r & _ & _ & _ & Hrun & Htitle & _ & _).
  unfold demo_turn. rewrite Hrun. cbn [snd]. rewrite Htitle. reflexivity.
Defined.

(** C4: the second turn of a conversation whose first user message was
    deleted.  After the user message is appended the conversation holds two
    messages, and the turn still writes a title: the one derived from the
    message now first, the assistant reply of the first turn. *)
Lemma title_rederived_on_later_turn :
  stored_title after_first_turn "c1" = Some "hola"
  ∧ stored_title after_deletion "c1" = Some "hola"
  ∧ length <$> stored_messages after_deletion "c1" = Some 1
  ∧ length <$> stored_messages
                 (snd (demo_send app_after_first_turn "gracias" after_deletion)) "c1"
    = Some 2
  ∧ stored_title (snd (demo_turn app_after_first_turn "gracias" after_deletion)) "c1"
    = Some "Hola! Que tal?".
Proof. vm_compute. repeat split; reflexivity. Qed.

(** C7 on a turn whose memory search raises. *)
Lemma memory_failure_keeps_history_witness :
  let w := demo_world "New Chat" [stored_msg "m1" "user" "hello"] in
  turn_in demo_app "hola" "c1" [stored_msg "m1" "user" "hello"] w
  ∧ failing_search (mem0_adds w) "hola" (user_id demo_app) 5
    = Raise (Exn "RuntimeError" "vector store is locked")
  ∧ ∃ a1 w1 p um,
      failing_send demo_app "hola" w = (Ok (a1, Some p), w1)
      ∧ p_memories p = []
      ∧ p_history p = [stored_msg "m1" "user" "hello"; um]
      ∧ um !! "content" = Some "hola".
Proof.
  cbv zeta.
  assert (turn_in demo_app "hola" "c1" [stored_msg "m1" "user" "hello"]
            (demo_world "New Chat" [stored_msg "m1" "user" "hello"])) as Hturn.
  { apply demo_turn_in. vm_compute. discriminate. }
  split; [exact Hturn |]. split; [reflexivity |].
  destruct (memory_failure_keeps_history demo_chat demo_loads "functiongemma"
              demo_translation_llm demo_reasoning_llm demo_isoformat demo_uuid4
              failing_search demo_add_raises demo_app "hola" "c1" _ _ Hturn
              (or_intror (ex_intro _ _ eq_refl)))
    as (a1 & w1 & p & um & Hsend & Hmem & Hhist & _ & Hc & _).
  exists a1, w1, p, um. by repeat split.
Defined.

(** C8 on the translation of "good morning" to French. *)
Lemma translate_turn_reply_and_record_witness :
  let message := "how do you say good morning in French" in
  let w := demo_world "New Chat" [] in
  let reply := translation_reply "French" "Bonjour" in
  turn_in demo_app message "c1" [] w
  ∧ demo_route message
    = Ok (Route "translate"
            (VDict {[ "text" := "good morning"; "target_language" := "French" ]}))
  ∧ ∃ a2 w2,
      demo_turn demo_app message w
      = (Ok (a2, Some (reply, [InvokeTranslation "Translate to French: good morning"
                                 (Ok " Bonjour ")])), w2)
      ∧ mem0_adds w2 = [exchange_call demo_app message reply].
Proof.
  cbv zeta.
  assert (turn_in demo_app "how do you say good morning in French" "c1" []
            (demo_world "New Chat" [])) as Hturn.
  { apply demo_turn_in. vm_compute. discriminate. }
  split; [exact Hturn |]. split; [reflexivity |].
  destruct (translate_turn_reply_and_record demo_chat demo_loads "functiongemma"
              demo_translation_llm demo_reasoning_llm demo_isoformat demo_uuid4
              demo_search demo_add_raises demo_app
              "how do you say good morning in French" "c1" [] (demo_world "New Chat" [])
              {[ "text" := "good morning"; "target_language" := "French" ]}
              "good morning" "French" " Bonjour "
              Hturn eq_refl eq_refl eq_refl eq_refl)
    as (a2 & w2 & Hrun & _ & Hindex & _).
  exists a2, w2. split; [exact Hrun |].
  exact (proj1 (Hindex eq_refl eq_refl)).
Defined.

(** C8: the record a translation turn adds to the index has no metadata,
    and so no category. *)
Lemma translate_turn_record_without_category :
  let r := demo_turn demo_app "how do you say good morning in French"
             (demo_world "New Chat" []) in
  (snd <$> (match fst r with Ok x => Some x | Raise _ => None end))
  = Some (Some (translation_reply "French" "Bonjour",
                [InvokeTranslation "Translate to French: good morning" (Ok " Bonjour ")]))
  ∧ length (mem0_adds (snd r)) = 1
  ∧ (λ c : add_call, add_metadata c !! "category") <$> mem0_adds (snd r) = [None].
Proof. vm_compute. repeat split; reflexivity. Qed.


(** * The further properties on the example states *)

(** A listing that answers with the names of the files stored under
    [conversations/]. *)
Definition demo_listdir (fs : gmap string file_content) : list string :=
  omap (λ p : string,
          if Str.startswith "conversations/" p then Some (str_drop 14 p) else None)
       (elements (dom fs)).

(** A world whose conversation [c1] is a file that does not hold JSON. *)
Definition broken_world : world := World {[ conv_path "c1" := NotJson ]} 0 0 [] [].

(** A router backend that always answers with an [exercise] call asking for
    an advanced exercise. *)
Definition exercise_chat (model user_message : string) : result chat_response :=
  Ok (ChatResponse
        [ToolCall "exercise" (RawVal (VDict {[ "difficulty" := "advanced" ]}))] None).

(** X1 on a conversation of one message. *)
Lemma clear_conversation_empties_witness :
  let w := demo_world "hello" [stored_msg "m1" "user" "hello"] in
  files w !! conv_path "c1" = Some (demo_conv "hello" [stored_msg "m1" "user" "hello"])
  ∧ ∃ w', clear_conversation demo_isoformat "c1" w = (Ok true, w')
          ∧ stored_messages w' "c1" = Some []
          ∧ stored_title w' "c1" = Some "hello".
Proof.
  cbv zeta. split; [reflexivity |].
  destruct (clear_conversation_empties demo_isoformat "c1"
              (demo_world "hello" [stored_msg "m1" "user" "hello"]) _ eq_refl)
    as (w' & Hrun & _ & Hm & Ht & _).
  exists w'. split; [exact Hrun |]. split; [exact Hm |]. rewrite Ht. reflexivity.
Defined.

(** X2: the first of two messages is deleted. *)
Lemma delete_present_message_witness :
  let m1 := stored_msg "m1" "user" "hello" in
  let m2 := stored_msg "m2" "assistant" "hi there" in
  let w := demo_world "hello" [m1; m2] in
  stored_messages w "c1" = Some [m1; m2]
  ∧ ∃ w', delete_message_from_conversation demo_isoformat "c1" "m1" w = (Ok true, w')
          ∧ stored_messages w' "c1" = Some [m2].
Proof.
  cbv zeta. split; [reflexivity |].
  destruct (delete_present_message demo_isoformat "c1" "m1"
              (demo_world "hello" [stored_msg "m1" "user" "hello";
                                   stored_msg "m2" "assistant" "hi there"])
              _ [] (stored_msg "m1" "user" "hello")
              [stored_msg "m2" "assistant" "hi there"] eq_refl eq_refl eq_refl)
    as (w' & Hrun & Hm & _).
  { intros other ->%list_elem_of_singleton. vm_compute. discriminate. }
  exists w'. split; [exact Hrun | exact Hm].
Defined.

(** X3: a second message is appended and read back. *)
Lemma append_then_load_witness :
  let m1 := stored_msg "m1" "user" "hello" in
  let w := demo_world "hello" [m1] in
  stored_messages w "c1" = Some [m1]
  ∧ ∃ w' m, add_message_to_conversation demo_isoformat demo_uuid4 "c1" "assistant" "hi"
              w = (Ok true, w')
            ∧ load_conversation "c1" w' = (Ok [m1; m], w')
            ∧ m !! "role" = Some "assistant" ∧ m !! "content" = Some "hi"
            ∧ m !! "id" = Some "uuid-0".
Proof.
  cbv zeta.
  assert (stored_messages (demo_world "hello" [stored_msg "m1" "user" "hello"]) "c1"
          = Some [stored_msg "m1" "user" "hello"]) as H by reflexivity.
  split; [exact H |].
  destruct (append_then_load demo_isoformat demo_uuid4 "c1" "assistant" "hi" _ _ H)
    as (w' & m & Hrun & Hload & Hrole & Hcontent & Hid & _).
  exists w', m. repeat split; assumption.
Defined.

(** X6: a stored conversation is renamed. *)
Lemma rename_keeps_messages_witness :
  let m1 := stored_msg "m1" "user" "hello" in
  let w := demo_world "hello" [m1] in
  files w !! conv_path "c1" = Some (demo_conv "hello" [m1])
  ∧ ∃ w', update_conversation_title demo_isoformat "c1" "Greetings" w = (Ok true, w')
          ∧ stored_title w' "c1" = Some "Greetings"
          ∧ stored_messages w' "c1" = Some [m1].
Proof.
  cbv zeta. split; [reflexivity |].
  destruct (rename_keeps_messages demo_isoformat "c1" "Greetings"
              (demo_world "hello" [stored_msg "m1" "user" "hello"]) _ eq_refl)
    as (w' & Hrun & Ht & Hm & _).
  exists w'. split; [exact Hrun |]. split; [exact Ht | exact Hm].
Defined.

(** X7 on a conversation file that does not hold JSON. *)
Lemma unusable_file_is_left_alone_witness :
  files broken_world !! conv_path "c1" = Some NotJson
  ∧ fst (add_message_to_conversation demo_isoformat demo_uuid4 "c1" "user" "hi"
           broken_world) = Ok false
  ∧ files (snd (clear_conversation demo_isoformat "c1" broken_world))
    = files broken_world
  ∧ load_conversation "c1" broken_world = (Ok [], broken_world).
Proof.
  assert (files broken_world !! conv_path "c1" = Some NotJson) as H by reflexivity.
  split; [exact H |].
  destruct (unusable_file_is_left_alone demo_isoformat demo_uuid4 "c1" "user" "hi" "m1"
              "title" broken_world (or_introl H))
    as ((Hadd & _) & _ & _ & (_ & Hclear) & Hload).
  split; [exact Hadd |]. split; [exact Hclear | exact Hload].
Defined.

(** X8: the operations on [c1] leave the file of [c2] alone. *)
Lemma store_operations_touch_one_file_witness :
  let w := demo_world "hello" [stored_msg "m1" "user" "hello"] in
  conv_path "c2" ≠ conv_path "c1"
  ∧ files (snd (add_message_to_conversation demo_isoformat demo_uuid4 "c1" "user" "hi" w))
    !! conv_path "c2" = files w !! conv_path "c2"
  ∧ files (snd (delete_conversation "c1" w)) !! conv_path "c2" = files w !! conv_path "c2".
Proof.
  cbv zeta.
  assert (conv_path "c2" ≠ conv_path "c1") as H by (vm_compute; discriminate).
  split; [exact H |].
  destruct (store_operations_touch_one_file demo_isoformat demo_uuid4 "c1" "user" "hi"
              "m1" "title" (conv_path "c2")
              (demo_world "hello" [stored_msg "m1" "user" "hello"]) H)
    as (_ & Hadd & _ & _ & _ & _ & _ & _ & _ & Hdel & _).
  split; [exact Hadd | exact Hdel].
Defined.

(** X9: the last two French entries of a log of 100. *)
Lemma translation_history_window_witness :
  translation_log full_log_world "u1" = Some (replicate 100 old_entry)
  ∧ ∃ shown, get_translation_history "u1" None (Some "French") 2 full_log_world
             = (Ok (Some shown), full_log_world)
             ∧ length shown ≤ 2
             ∧ ∀ t, t ∈ shown → target_language t = "French".
Proof.
  assert (translation_log full_log_world "u1" = Some (replicate 100 old_entry)) as H
    by reflexivity.
  split; [exact H |].
  destruct (translation_history_window "u1" None (Some "French") 2 full_log_world _ H)
    as (shown & earlier & Hrun & _ & Hlen & _ & Hall).
  exists shown. split; [exact Hrun |]. split; [apply Hlen; lia |].
  intros t Ht. destruct (Hall t Ht) as (_ & _ & Htarget).
  specialize (Htarget eq_refl). by injection Htarget.
Defined.

(** X10: the entry added to a full log is the one a history of length 1
    shows. *)
Lemma added_translation_is_latest_witness :
  let w' := snd (add_translation_memory demo_isoformat "u1" "cat" "chat" "English"
                   "French" None full_log_world) in
  translation_log full_log_world "u1" = Some (replicate 100 old_entry)
  ∧ get_translation_history "u1" None None 1 w'
    = (Ok (Some [TranslationEntry "cat" "chat" "English" "French" (demo_isoformat 0) ∅]),
       w').
Proof.
  cbv zeta.
  assert (translation_log full_log_world "u1" = Some (replicate 100 old_entry)) as H
    by reflexivity.
  split; [exact H |].
  exact (proj1 (added_translation_is_latest demo_isoformat "u1" "cat" "chat" "English"
                  "French" None full_log_world _ 1 H)).
Defined.

(** X12: a user, a system and an assistant message. *)
Lemma add_conversation_buffers_known_roles_witness :
  let msgs := [stored_msg "m1" "user" "hi"; stored_msg "m2" "system" "be kind";
               stored_msg "m3" "assistant" "hello"] in
  ∃ w', add_conversation demo_isoformat "u1" msgs empty_world = (Ok (Some 3), w')
        ∧ chat_memory w' = [Human "hi"; AI "hello"]
        ∧ files w' = files empty_world.
Proof.
  cbv zeta.
  destruct (add_conversation_buffers_known_roles demo_isoformat "u1"
              [stored_msg "m1" "user" "hi"; stored_msg "m2" "system" "be kind";
               stored_msg "m3" "assistant" "hello"] empty_world)
    as (w' & Hrun & Hbuf & Hfiles).
  { intros msg Hin. rewrite !elem_of_cons, elem_of_nil in Hin.
    destruct Hin as [-> | [-> | [-> | []]]]; split; by eexists. }
  exists w'. split; [exact Hrun |]. split; [exact Hbuf |].
  apply Hfiles. rewrite Hbuf. discriminate.
Defined.

(** X13: the second message has no role. *)
Lemma add_conversation_keeps_partial_buffer_witness :
  let bad : stored_message := {[ "content" := "no role" ]} in
  bad !! "role" = None
  ∧ ∃ w', add_conversation demo_isoformat "u1" [stored_msg "m1" "user" "hi"; bad]
            empty_world = (Ok None, w')
          ∧ chat_memory w' = [Human "hi"]
          ∧ files w' = files empty_world.
Proof.
  cbv zeta. split; [reflexivity |].
  destruct (add_conversation_keeps_partial_buffer demo_isoformat "u1"
              [stored_msg "m1" "user" "hi"] {[ "content" := "no role" ]} [] empty_world)
    as (w' & Hrun & Hbuf & Hfiles).
  { intros msg ->%list_elem_of_singleton. split; by eexists. }
  { reflexivity. }
  exists w'. split; [exact Hrun |]. split; [exact Hbuf | exact Hfiles].
Defined.

(** X15: the conversation [c1] in the listing of its directory. *)
Lemma stored_conversation_is_listed_witness :
  let w := demo_world "hello" [stored_msg "m1" "user" "hello"] in
  demo_listdir (files w) = ["conv_c1.json"]
  ∧ ∃ l w' s, get_all_conversations demo_isoformat demo_listdir w = (Ok l, w')
              ∧ s ∈ l ∧ s_id s = "c1" ∧ s_title s = "hello" ∧ s_message_count s = 1.
Proof.
  cbv zeta.
  assert (demo_listdir (files (demo_world "hello" [stored_msg "m1" "user" "hello"]))
          = ["conv_c1.json"]) as Hdir by (vm_compute; reflexivity).
  split; [exact Hdir |].
  edestruct (stored_conversation_is_listed demo_isoformat demo_listdir "c1"
               (demo_world "hello" [stored_msg "m1" "user" "hello"]))
    as (l & w' & s & Hrun & Hin & Hid & Htitle & Hcount).
  { rewrite Hdir. apply list_elem_of_singleton. reflexivity. }
  { reflexivity. }
  exists l, w', s. split; [exact Hrun |]. split; [exact Hin |].
  split; [exact Hid |]. split; [exact Htitle | exact Hcount].
Defined.

(** X17: a tool the executor does not know, with arguments that are a
    list. *)
Lemma unknown_tool_is_chat_witness :
  ("grammar_check" ∉ ["translate"; "teach"; "exercise"])
  ∧ ∃ reply call,
      _execute_and_respond demo_translation_llm demo_reasoning_llm "grammar_check"
        (VOther "[1, 2]") "hola" [] ∅ [] = (Ok reply, [call]).
Proof.
  assert ("grammar_check" ∉ ["translate"; "teach"; "exercise"]) as H.
  { intros Hin. rewrite !elem_of_cons, elem_of_nil in Hin.
    destruct Hin as [Hin | [Hin | [Hin | []]]]; discriminate Hin. }
  split; [exact H |].
  exact (proj2 (unknown_tool_is_chat demo_translation_llm demo_reasoning_llm
                  "grammar_check" (VOther "[1, 2]") "hola" [] ∅ [] H)).
Defined.

(** X18: "translate cat" is routed to [translate] with an argument string
    that is not JSON; with no profile the whole message goes to Spanish. *)
Lemma unparsed_translate_arguments_default_witness :
  demo_chat "functiongemma" "translate cat"
  = Ok (ChatResponse [ToolCall "translate" (RawStr "{text: cat")] None)
  ∧ demo_loads "{text: cat" = None
  ∧ snd (chat_with_tutor demo_chat demo_loads "functiongemma" demo_translation_llm
           demo_reasoning_llm "translate cat" [] [] None)
    = [InvokeTranslation "Translate to Spanish: translate cat"
         (Raise (Exn "ConnectionError" "connection refused"))].
Proof.
  split; [reflexivity |]. split; [reflexivity |].
  rewrite (unparsed_translate_arguments_default demo_chat demo_loads "functiongemma"
             demo_translation_llm demo_reasoning_llm "translate cat" [] [] None
             _ _ _ _ eq_refl eq_refl eq_refl eq_refl eq_refl).
  reflexivity.
Defined.

(** X20 on the translation of "good morning" to French. *)
Lemma translate_tool_agrees_with_translate_text_witness :
  let d : gmap string string :=
    {[ "text" := "good morning"; "target_language" := "French" ]} in
  d !! "text" = Some "good morning" ∧ d !! "target_language" = Some "French"
  ∧ translate_text demo_translation_llm "good morning" "French"
    = Translated "Bonjour" "French"
  ∧ fst (_execute_and_respond demo_translation_llm demo_reasoning_llm "translate"
           (VDict d) "say good morning" [] ∅ [])
    = Ok (translation_reply "French" "Bonjour").
Proof.
  cbv zeta.
  set (d := {[ "text" := "good morning"; "target_language" := "French" ]}
            : gmap string string).
  assert (d !! "text" = Some "good morning") as Htext by reflexivity.
  assert (d !! "target_language" = Some "French") as Htarget by reflexivity.
  split; [exact Htext |]. split; [exact Htarget |]. split; [reflexivity |].
  rewrite (translate_tool_agrees_with_translate_text demo_translation_llm
             demo_reasoning_llm d "good morning" "French" "say good morning" [] ∅ []
             Htext Htarget).
  reflexivity.
Defined.

(** X21: a beginner exercise is asked for, and the router answers with an
    advanced one. *)
Lemma generate_exercise_uses_routed_arguments_witness :
  _route_message exercise_chat demo_loads "functiongemma"
    "Give me a beginner French exercise"
  = Ok (Route "exercise" (VDict {[ "difficulty" := "advanced" ]}))
  ∧ generate_exercise exercise_chat demo_loads "functiongemma" demo_translation_llm
      demo_reasoning_llm "French" "beginner"
    = ((true, "Hola! Que tal?"),
       [InvokeReasoning (system_prompt "Student" "French" [])
          (exercise_task "advanced" "French") (Ok "Hola! Que tal?")]).
Proof.
  assert (_route_message exercise_chat demo_loads "functiongemma"
            ("Give me a " +:+ "beginner" +:+ " " +:+ "French" +:+ " exercise")
          = Ok (Route "exercise" (VDict {[ "difficulty" := "advanced" ]}))) as H
    by reflexivity.
  split; [exact H |].
  rewrite (generate_exercise_uses_routed_arguments exercise_chat demo_loads
             "functiongemma" demo_translation_llm demo_reasoning_llm "French" "beginner"
             _ H).
  reflexivity.
Defined.

(** X26 on a first message of 51 characters. *)
Lemma title_after_turn_is_bounded_witness :
  let message := "How do I order a coffee with milk in Spanish today?" in
  turn_in demo_app message "c1" [] (demo_world "New Chat" [])
  ∧ ∃ title,
      stored_title (snd (demo_turn demo_app message (demo_world "New Chat" []))) "c1"
      = Some title
      ∧ String.length title ≤ 53.
Proof.
  cbv zeta.
  assert (turn_in demo_app "How do I order a coffee with milk in Spanish today?" "c1" []
            (demo_world "New Chat" [])) as Hturn.
  { apply demo_turn_in. vm_compute. discriminate. }
  split; [exact Hturn |].
  destruct (title_after_turn_is_bounded demo_chat demo_loads "functiongemma"
              demo_translation_llm demo_reasoning_llm demo_isoformat demo_uuid4
              demo_search demo_add_raises demo_app _ "c1" [] _ Hturn)
    as (title & first & Htitle & _ & Hlen & _).
  exists title. split; [exact Htitle | exact Hlen].
Defined.
